(** * The [clip] command of the KeePassXC command-line client

    A shallow embedding of [Clip::executeWithDatabase] (src/cli/Clip.cpp)
    and the properties of the command: option validation, attribute
    resolution, the clipboard write and the countdown that clears it.

    The command talks to its surroundings through collaborators that live
    outside Clip.cpp (the database, the attribute matcher, the clipboard
    helper, the locale).  They are section variables here; every call the
    command makes to the outside world is recorded, in order, in a trace
    of events. *)

From Stdlib Require Import Ascii String.
From stdpp Require Import gmap strings list pretty.

Local Open Scope string_scope.
Local Open Scope Z_scope.

(** ** Strings

    A [QString] is a Rocq [string]; the characters are those of Latin-1. *)

Definition isEmpty (s : string) : bool :=
  match s with
  | EmptyString => true
  | String _ _ => false
  end.

(** [QString(n, ' ')]: a string of [n] blanks. *)
Fixpoint spaces (n : nat) : string :=
  match n with
  | O => ""
  | S m => String " " (spaces m)
  end.

Definition CR : string := String (ascii_of_nat 13) "".
Definition LF : string := String (ascii_of_nat 10) "".

(** ** [QString::toInt]

    Modelled from the spec: [QString::toInt] is Qt's and is not among the
    sources.  The spec asks for a timeout that parses as an integer greater
    than zero; the conversion is written after Qt's description of it, in
    base 10 and in the C locale: white space around the number is skipped,
    a sign may come first, then at least one decimal digit and nothing
    else.  Whatever does not convert, and whatever does not fit an [int],
    gives 0. *)

Module QtInt.

Definition INT_MIN : Z := - 2 ^ 31.
Definition INT_MAX : Z := 2 ^ 31 - 1.
Definition LLONG_MIN : Z := - 2 ^ 63.
Definition LLONG_MAX : Z := 2 ^ 63 - 1.

(** [QChar::isSpace] on Latin-1: TAB to CR, the blank, NEL and the
    no-break space. *)
Definition isSpace (c : ascii) : bool :=
  let n := N_of_ascii c in
  ((9 <=? n) && (n <=? 13) || (n =? 32) || (n =? 133) || (n =? 160))%N.

Definition isDigit (c : ascii) : bool :=
  let n := N_of_ascii c in ((48 <=? n) && (n <=? 57))%N.

Definition digitValue (c : ascii) : Z := Z.of_N (N_of_ascii c) - 48.

Fixpoint skipSpaces (l : list ascii) : list ascii :=
  match l with
  | c :: r => if isSpace c then skipSpaces r else l
  | [] => []
  end.

Definition trimmed (l : list ascii) : list ascii :=
  rev (skipSpaces (rev (skipSpaces l))).

(** The digits of a number, most significant first; [None] at the first
    character that is not a digit. *)
Fixpoint readDigits (acc : Z) (l : list ascii) : option Z :=
  match l with
  | [] => Some acc
  | c :: r => if isDigit c then readDigits (10 * acc + digitValue c) r else None
  end.

Definition readUnsigned (l : list ascii) : option Z :=
  match l with
  | [] => None
  | _ :: _ => readDigits 0 l
  end.

Definition readSigned (l : list ascii) : option Z :=
  match l with
  | c :: r =>
      if Ascii.eqb c "-" then Z.opp <$> readUnsigned r
      else if Ascii.eqb c "+" then readUnsigned r
      else readUnsigned l
  | [] => None
  end.

(** [QString::toLongLong]: the value, or [None] when the conversion
    fails (Qt's [ok] flag is then false). *)
Definition toLongLong (s : string) : option Z :=
  match readSigned (trimmed (list_ascii_of_string s)) with
  | Some z => if (LLONG_MIN <=? z) && (z <=? LLONG_MAX) then Some z else None
  | None => None
  end.

(** Modelled from the spec: [QString::toInt()], which is Qt's; 0 when the
    conversion fails or the value is not an [int]. *)
Definition toInt (s : string) : Z :=
  match toLongLong s with
  | Some z => if (INT_MIN <=? z) && (z <=? INT_MAX) then z else 0
  | None => 0
  end.

(** What a decimal representation of an integer is, said without the
    reader above: blanks, an optional sign, one digit or more, blanks. *)
Definition digitsValue (ds : list ascii) : Z :=
  fold_left (fun acc c => 10 * acc + digitValue c) ds 0.

Inductive Sign : list ascii -> Z -> Prop :=
| SignNone : Sign [] 1
| SignPlus : Sign ["+"%char] 1
| SignMinus : Sign ["-"%char] (-1).

Definition DecimalInt (s : string) (z : Z) : Prop :=
  exists (ws1 sg : list ascii) (k : Z) (ds ws2 : list ascii),
    list_ascii_of_string s = (ws1 ++ sg ++ ds ++ ws2)%list /\
    forallb isSpace ws1 = true /\
    forallb isSpace ws2 = true /\
    Sign sg k /\
    ds <> [] /\
    forallb isDigit ds = true /\
    z = k * digitsValue ds.

(** The strings that stand for an [int]. *)
Definition IntRepresentation (s : string) : Prop :=
  exists z, DecimalInt s z /\ INT_MIN <= z <= INT_MAX.

End QtInt.


(** ** The data the command reads *)

(** An entry of the database, as far as the command looks at it:
    [hasTotp()], [totp()] (the code valid at the moment of the call) and
    [attributes()], the attributes by key. *)
Record Entry : Type := {
  hasTotp : bool;
  totp : string;
  attributes : gmap string string
}.

(** [EntryAttributes::value]: the value stored under the key, the null
    string when there is none. *)
Definition attributeValue (attrs : gmap string string) (key : string) : string :=
  default "" (attrs !! key).

Inductive CliOption : Type := QuietOption | AttributeOption | TotpOption.

(** The parsed command line.  [attributeArg] is [Some a] when
    [--attribute a] was given. *)
Record QCommandLineParser : Type := {
  positionalArguments : list string;
  quietSet : bool;
  attributeArg : option string;
  totpSet : bool
}.

Definition isSet (parser : QCommandLineParser) (o : CliOption) : bool :=
  match o with
  | QuietOption => quietSet parser
  | AttributeOption => match attributeArg parser with Some _ => true | None => false end
  | TotpOption => totpSet parser
  end.

(** The default value [Clip::AttributeOption] is declared with. *)
Definition AttributeOption_default : string := "password".

(** [parser->value(AttributeOption)]. *)
Definition optionValue (parser : QCommandLineParser) : string :=
  default AttributeOption_default (attributeArg parser).

Definition EXIT_SUCCESS : Z := 0.
Definition EXIT_FAILURE : Z := 1.

(** ** What the command does to the outside world *)

Inductive Device : Type := STDERR | STDOUT | DEVNULL.

Inductive Event : Type :=
| Write (d : Device) (s : string)
| Flush (d : Device)
| FindEntryByPath (path : string)
| FindAttributes (name : string)
| Totp
| ClipText (text : string) (exitCode : Z)
| Sleep (ms : Z).

#[global] Instance Device_eq_dec : EqDecision Device.
Proof. solve_decision. Defined.

#[global] Instance Event_eq_dec : EqDecision Event.
Proof. solve_decision. Defined.

(** The text a device has received. *)
Fixpoint written (d : Device) (t : list Event) : string :=
  match t with
  | [] => ""
  | Write d' s :: r => if decide (d' = d) then s +:+ written d r else written d r
  | _ :: r => written d r
  end.

Definition isClipText (e : Event) : bool :=
  match e with ClipText _ _ => true | _ => false end.

Definition isSleep (e : Event) : bool :=
  match e with Sleep _ => true | _ => false end.

Definition isWrite (e : Event) : bool :=
  match e with Write _ _ => true | _ => false end.

(** The same command line with the quiet flag set or not. *)
Definition withQuiet (q : bool) (parser : QCommandLineParser)
  : QCommandLineParser :=
  {| positionalArguments := positionalArguments parser;
     quietSet := q;
     attributeArg := attributeArg parser;
     totpSet := totpSet parser |}.

(** Standard output sent to the null device. *)
Definition redirect (d : Device) : Device :=
  match d with
  | STDOUT => DEVNULL
  | _ => d
  end.

Definition redirectEvent (e : Event) : Event :=
  match e with
  | Write d s => Write (redirect d) s
  | Flush d => Flush (redirect d)
  | _ => e
  end.

(** ** The messages, in the source language of [QObject::tr] *)

Definition DQUOTE : string := String (ascii_of_nat 34) "".

Definition msgInvalidTimeout (timeout : string) : string :=
  "Invalid timeout value " +:+ timeout +:+ ".".

Definition msgEntryNotFound (entryPath : string) : string :=
  "Entry " +:+ entryPath +:+ " not found.".

Definition msgConflictingOptions : string :=
  "ERROR: Please specify one of --attribute or --totp, not both.".

Definition msgNoTotp (entryPath : string) : string :=
  "Entry with path " +:+ entryPath +:+ " has no TOTP set up.".

Definition msgAmbiguous (selectedAttribute separatedList : string) : string :=
  "ERROR: attribute " +:+ selectedAttribute +:+ " is ambiguous, it matches "
    +:+ separatedList +:+ ".".

Definition msgAttributeNotFound (selectedAttribute : string) : string :=
  "Attribute " +:+ DQUOTE +:+ selectedAttribute +:+ DQUOTE +:+ " not found.".

Definition msgCopied (selectedAttribute : string) : string :=
  "Entry's " +:+ DQUOTE +:+ selectedAttribute +:+ DQUOTE
    +:+ " attribute copied to the clipboard!".

Definition msgClearing (timeoutSeconds : Z) : string :=
  "Clearing the clipboard in " +:+ pretty timeoutSeconds +:+ " second(s)...".

Definition msgCleared : string := "Clipboard cleared!".

(** ** The trace of the countdown *)

(** What the loop of lines 127-133 emits when it starts at [n] seconds
    with [lastLine] on the screen. *)
Fixpoint countdownTrace (out : Device) (n : nat) (lastLine : string)
  : list Event :=
  match n with
  | O => []
  | S m =>
      Write out CR :: Write out (spaces (String.length lastLine))
        :: Write out CR :: Write out (msgClearing (Z.of_nat n))
        :: Flush out :: Sleep 1000
        :: countdownTrace out m (msgClearing (Z.of_nat n))
  end.

(** [lastLine] when the loop is left. *)
Definition lastLineAfter (n : nat) (lastLine : string) : string :=
  match n with
  | O => lastLine
  | S _ => msgClearing 1
  end.

(** The seconds the countdown shows: [n], [n - 1], ..., 1. *)
Fixpoint countdownFrom (n : nat) : list Z :=
  match n with
  | O => []
  | S m => Z.of_nat n :: countdownFrom m
  end.

(** The status lines of the countdown among the events of a trace. *)
Definition isStatusLine (e : Event) : bool :=
  match e with
  | Write _ s => String.prefix "Clearing the clipboard in " s
  | _ => false
  end.

(** The device of [outputTextStream], line 72. *)
Definition outputDevice (parser : QCommandLineParser) : Device :=
  if isSet parser QuietOption then DEVNULL else STDOUT.

(** ** The command *)

(** A statement either falls through to the next one or returns from the
    function with an exit code. *)
Inductive Flow (A : Type) : Type :=
| Next (a : A)
| Return (code : Z).
Arguments Next {A} a.
Arguments Return {A} code.

Section Clip.

(** The collaborators of the command; none of them is defined in
    Clip.cpp. *)
Variable Database : Type.
(** [database->rootGroup()->findEntryByPath(path)] *)
Variable findEntryByPath : Database -> string -> option Entry.
(** [Utils::findAttributes]: the keys that match a name, in its order. *)
Variable findAttributes : gmap string string -> string -> list string.
(** [QLocale().createSeparatedList], which depends on the locale. *)
Variable createSeparatedList : list string -> string.
(** The system clipboard together with whatever decides how the helper
    program that writes it fares. *)
Variable Clipboard : Type.
(** [Utils::clipText]: the exit code and the clipboard afterwards.  What
    the helper prints on its own is not part of the trace. *)
Variable clipText : string -> Clipboard -> Z * Clipboard.

(** Statements run on the clipboard and say what they did. *)
Definition M (A : Type) : Type := Clipboard -> Flow A * list Event * Clipboard.

Definition ret {A} (a : A) : M A := fun c => (Next a, [], c).

Definition return_ {A} (code : Z) : M A := fun c => (Return code, [], c).

Definition bind {A B} (m : M A) (f : A -> M B) : M B :=
  fun c =>
    match m c with
    | (Next a, t, c') =>
        match f a c' with
        | (r, t', c'') => (r, (t ++ t')%list, c'')
        end
    | (Return code, t, c') => (Return code, t, c')
    end.

#[local] Instance M_bind : MBind M := fun A B f m => bind m f.

Definition emit (e : Event) : M unit := fun c => (Next tt, [e], c).

(** [if (cond) { ... }] with nothing after it in the branch. *)
Definition when (cond : bool) (m : M unit) : M unit :=
  if cond then m else ret tt.

(** [TextStream]'s [<<], [endl] and [flush]. *)
Definition put (d : Device) (s : string) : M unit := emit (Write d s).
Definition endl (d : Device) : M unit := emit (Write d LF) ;; emit (Flush d).
Definition flush (d : Device) : M unit := emit (Flush d).

Notation "d << s" := (put d s) (at level 35, no associativity).

Definition callFindEntryByPath (database : Database) (path : string)
  : M (option Entry) :=
  emit (FindEntryByPath path) ;; ret (findEntryByPath database path).

Definition callFindAttributes (attrs : gmap string string) (name : string)
  : M (list string) :=
  emit (FindAttributes name) ;; ret (findAttributes attrs name).

Definition callTotp (entry : Entry) : M string :=
  emit Totp ;; ret (totp entry).

Definition callClipText (text : string) : M Z :=
  fun c =>
    match clipText text c with
    | (exitCode, c') => (Next exitCode, [ClipText text exitCode], c')
    end.

Definition sleep_for (ms : Z) : M unit := emit (Sleep ms).

(** Lines 127-133, the loop [while (timeoutSeconds > 0)] with
    [timeoutSeconds = n], which it leaves after [n] rounds; the result is
    [lastLine] after the loop.  The function calls it with
    [Z.to_nat timeoutSeconds], no round when [timeoutSeconds <= 0]. *)
Fixpoint countdown (outputTextStream : Device) (n : nat) (lastLine : string)
  : M string :=
  match n with
  | O => ret lastLine
  | S m =>
      let timeoutSeconds := Z.of_nat n in
      outputTextStream << CR ;;
      outputTextStream << spaces (String.length lastLine) ;;
      outputTextStream << CR ;;
      let lastLine := msgClearing timeoutSeconds in
      outputTextStream << lastLine ;;
      flush outputTextStream ;;
      sleep_for 1000 ;;
      countdown outputTextStream m lastLine
  end.

(** Lines 62-138: the function once [entryPath] and [timeout] are read. *)
Definition execute (database : Database) (parser : QCommandLineParser)
    (entryPath timeout : string) : M Z :=
  let errorTextStream := STDERR in
  when (negb (isEmpty timeout) && (QtInt.toInt timeout <=? 0))
    (errorTextStream << msgInvalidTimeout timeout ;;
     endl errorTextStream ;;
     return_ EXIT_FAILURE) ;;
  let timeoutSeconds :=
    if negb (isEmpty timeout) then QtInt.toInt timeout else 0 in
  let outputTextStream := outputDevice parser in
  entry ← callFindEntryByPath database entryPath;
  match entry with
  | None =>
      errorTextStream << msgEntryNotFound entryPath ;;
      endl errorTextStream ;;
      return_ EXIT_FAILURE
  | Some entry =>
      when (isSet parser AttributeOption && isSet parser TotpOption)
        (errorTextStream << msgConflictingOptions ;;
         endl errorTextStream ;;
         return_ EXIT_FAILURE) ;;
      let selectedAttribute := optionValue parser in
      (* value, found and selectedAttribute after lines 88-108 *)
      resolved ←
        (if isSet parser TotpOption || String.eqb selectedAttribute "totp" then
           when (negb (hasTotp entry))
             (errorTextStream << msgNoTotp entryPath ;;
              endl errorTextStream ;;
              return_ EXIT_FAILURE) ;;
           value ← callTotp entry;
           ret (true, selectedAttribute, value)
         else
           attrs ← callFindAttributes (attributes entry) selectedAttribute;
           if (1 <? length attrs)%nat then
             errorTextStream
               << msgAmbiguous selectedAttribute (createSeparatedList attrs) ;;
             endl errorTextStream ;;
             return_ EXIT_FAILURE
           else if (length attrs =? 1)%nat then
             let selectedAttribute := nth 0 attrs "" in
             ret (true, selectedAttribute,
                  attributeValue (attributes entry) selectedAttribute)
           else ret (false, selectedAttribute, ""));
      let '(found, selectedAttribute, value) := resolved in
      when (negb found)
        (outputTextStream << msgAttributeNotFound selectedAttribute ;;
         endl outputTextStream ;;
         return_ EXIT_FAILURE) ;;
      exitCode ← callClipText value;
      when (negb (exitCode =? EXIT_SUCCESS)) (return_ exitCode) ;;
      outputTextStream << msgCopied selectedAttribute ;;
      endl outputTextStream ;;
      when (timeoutSeconds =? 0) (return_ exitCode) ;;
      lastLine ← countdown outputTextStream (Z.to_nat timeoutSeconds) "";
      callClipText "" ;;
      outputTextStream << CR ;;
      outputTextStream << spaces (String.length lastLine) ;;
      outputTextStream << CR ;;
      outputTextStream << msgCleared ;;
      endl outputTextStream ;;
      return_ EXIT_SUCCESS
  end.

(** What a run of the command leaves: the exit code, the trace and the
    clipboard. *)
Record Run : Type := {
  exitCode : Z;
  trace : list Event;
  clipboard : Clipboard
}.

Definition finish (r : Flow Z * list Event * Clipboard) : Run :=
  match r with
  | (Next code, t, c) | (Return code, t, c) =>
      {| exitCode := code; trace := t; clipboard := c |}
  end.

(** Lines 58-61: [timeout] stays the null string unless there are
    exactly three positional arguments. *)
Definition timeoutArgument (args : list string) : string :=
  if (length args =? 3)%nat then nth 2 args "" else "".

(** [Clip::executeWithDatabase].  [args.at(1)] needs two positional
    arguments; without them [QList::at] has nothing to return and there
    is no run ([None]). *)
Definition executeWithDatabase (database : Database)
    (parser : QCommandLineParser) (c : Clipboard) : option Run :=
  let args := positionalArguments parser in
  match args !! 1%nat with
  | None => None
  | Some entryPath =>
      let timeout := timeoutArgument args in
      Some (finish (execute database parser entryPath timeout c))
  end.

(** ** The runs of the command, path by path

    One rule for each way through the function, from the first check
    that fails to the run that counts down and clears the clipboard. *)

(** The timeouts that lines 64-70 do not reject. *)
Definition acceptedTimeout (timeout : string) : Prop :=
  isEmpty timeout = true \/ 0 < QtInt.toInt timeout.

(** The condition of line 88. *)
Definition totpRequested (parser : QCommandLineParser) : bool :=
  isSet parser TotpOption || String.eqb (optionValue parser) "totp".

(** A message and the [endl] after it. *)
Definition line (d : Device) (msg : string) : list Event :=
  [Write d msg; Write d LF; Flush d].

(** Erasing [lastLine]: lines 128 and 135. *)
Definition erase (d : Device) (lastLine : string) : list Event :=
  [Write d CR; Write d (spaces (String.length lastLine)); Write d CR].

(** Lines 85-108 when they get to the end: the calls made, the
    attribute named afterwards and the value. *)
Inductive Resolves (parser : QCommandLineParser) (entry : Entry)
  : list Event -> string -> string -> Prop :=
| ResolvesTotp :
    totpRequested parser = true ->
    hasTotp entry = true ->
    Resolves parser entry [Totp] (optionValue parser) (totp entry)
| ResolvesAttribute (key : string) :
    totpRequested parser = false ->
    findAttributes (attributes entry) (optionValue parser) = [key] ->
    Resolves parser entry [FindAttributes (optionValue parser)] key
      (attributeValue (attributes entry) key).

Inductive Outcome (database : Database) (parser : QCommandLineParser)
    (entryPath timeout : string) (c : Clipboard) : Run -> Prop :=
| InvalidTimeout :
    isEmpty timeout = false ->
    QtInt.toInt timeout <= 0 ->
    Outcome database parser entryPath timeout c
      {| exitCode := EXIT_FAILURE;
         trace := line STDERR (msgInvalidTimeout timeout);
         clipboard := c |}
| EntryNotFound :
    acceptedTimeout timeout ->
    findEntryByPath database entryPath = None ->
    Outcome database parser entryPath timeout c
      {| exitCode := EXIT_FAILURE;
         trace := FindEntryByPath entryPath
                    :: line STDERR (msgEntryNotFound entryPath);
         clipboard := c |}
| ConflictingOptions (entry : Entry) :
    acceptedTimeout timeout ->
    findEntryByPath database entryPath = Some entry ->
    isSet parser AttributeOption = true ->
    isSet parser TotpOption = true ->
    Outcome database parser entryPath timeout c
      {| exitCode := EXIT_FAILURE;
         trace := FindEntryByPath entryPath
                    :: line STDERR msgConflictingOptions;
         clipboard := c |}
| NoTotpConfigured (entry : Entry) :
    acceptedTimeout timeout ->
    findEntryByPath database entryPath = Some entry ->
    isSet parser AttributeOption && isSet parser TotpOption = false ->
    totpRequested parser = true ->
    hasTotp entry = false ->
    Outcome database parser entryPath timeout c
      {| exitCode := EXIT_FAILURE;
         trace := FindEntryByPath entryPath
                    :: line STDERR (msgNoTotp entryPath);
         clipboard := c |}
| AttributeAmbiguous (entry : Entry) :
    acceptedTimeout timeout ->
    findEntryByPath database entryPath = Some entry ->
    isSet parser AttributeOption && isSet parser TotpOption = false ->
    totpRequested parser = false ->
    (1 < length (findAttributes (attributes entry) (optionValue parser)))%nat ->
    Outcome database parser entryPath timeout c
      {| exitCode := EXIT_FAILURE;
         trace := FindEntryByPath entryPath
                    :: FindAttributes (optionValue parser)
                    :: line STDERR
                         (msgAmbiguous (optionValue parser)
                            (createSeparatedList
                               (findAttributes (attributes entry)
                                  (optionValue parser))));
         clipboard := c |}
| AttributeNotFound (entry : Entry) :
    acceptedTimeout timeout ->
    findEntryByPath database entryPath = Some entry ->
    isSet parser AttributeOption && isSet parser TotpOption = false ->
    totpRequested parser = false ->
    findAttributes (attributes entry) (optionValue parser) = [] ->
    Outcome database parser entryPath timeout c
      {| exitCode := EXIT_FAILURE;
         trace := FindEntryByPath entryPath
                    :: FindAttributes (optionValue parser)
                    :: line (outputDevice parser)
                         (msgAttributeNotFound (optionValue parser));
         clipboard := c |}
| ClipboardWriteFailed (entry : Entry) (calls : list Event)
    (key value : string) (code : Z) (c1 : Clipboard) :
    acceptedTimeout timeout ->
    findEntryByPath database entryPath = Some entry ->
    isSet parser AttributeOption && isSet parser TotpOption = false ->
    Resolves parser entry calls key value ->
    clipText value c = (code, c1) ->
    code <> EXIT_SUCCESS ->
    Outcome database parser entryPath timeout c
      {| exitCode := code;
         trace := FindEntryByPath entryPath
                    :: (calls ++ [ClipText value code])%list;
         clipboard := c1 |}
| Copied (entry : Entry) (calls : list Event)
    (key value : string) (c1 : Clipboard) :
    isEmpty timeout = true ->
    findEntryByPath database entryPath = Some entry ->
    isSet parser AttributeOption && isSet parser TotpOption = false ->
    Resolves parser entry calls key value ->
    clipText value c = (EXIT_SUCCESS, c1) ->
    Outcome database parser entryPath timeout c
      {| exitCode := EXIT_SUCCESS;
         trace := FindEntryByPath entryPath
                    :: (calls ++ ClipText value EXIT_SUCCESS
                          :: line (outputDevice parser) (msgCopied key))%list;
         clipboard := c1 |}
| Cleared (entry : Entry) (calls : list Event)
    (key value : string) (c1 : Clipboard) (code2 : Z) (c2 : Clipboard) :
    isEmpty timeout = false ->
    0 < QtInt.toInt timeout ->
    findEntryByPath database entryPath = Some entry ->
    isSet parser AttributeOption && isSet parser TotpOption = false ->
    Resolves parser entry calls key value ->
    clipText value c = (EXIT_SUCCESS, c1) ->
    clipText "" c1 = (code2, c2) ->
    Outcome database parser entryPath timeout c
      {| exitCode := EXIT_SUCCESS;
         trace :=
           let out := outputDevice parser in
           let n := Z.to_nat (QtInt.toInt timeout) in
           FindEntryByPath entryPath
             :: (calls ++ ClipText value EXIT_SUCCESS
                   :: line out (msgCopied key)
                   ++ countdownTrace out n ""
                   ++ ClipText "" code2
                   :: erase out (lastLineAfter n "")
                   ++ line out msgCleared)%list;
         clipboard := c2 |}.

End Clip.

Arguments exitCode {Clipboard} r.
Arguments trace {Clipboard} r.
Arguments clipboard {Clipboard} r.

(** ** Collaborators to run the command with

    Stand-ins for the collaborators, of the kind a test of the command
    would plug in. *)
Module Sample.

(** The database: entries by path. *)
Definition findEntryByPath (db : gmap string Entry) (path : string)
  : option Entry := db !! path.

(** A matcher: the key itself when the entry has it, otherwise the keys
    the name is a prefix of. *)
Definition findAttributes (attrs : gmap string string) (name : string)
  : list string :=
  match attrs !! name with
  | Some _ => [name]
  | None => filter (fun key => String.prefix name key = true) (map_to_list attrs).*1
  end.

(** The separated list of a locale that puts a comma everywhere. *)
Fixpoint createSeparatedList (l : list string) : string :=
  match l with
  | [] => ""
  | [x] => x
  | x :: r => x +:+ ", " +:+ createSeparatedList r
  end.

(** A clipboard whose helper program exits with the codes of [helper],
    one per call, and with 0 once they are used up; the text reaches the
    clipboard when the helper exits with 0. *)
Record Clipboard : Type := {
  content : string;
  helper : list Z
}.

Definition clipText (text : string) (c : Clipboard) : Z * Clipboard :=
  match helper c with
  | [] => (0, {| content := text; helper := [] |})
  | code :: later =>
      (code, {| content := if code =? 0 then text else content c;
                helper := later |})
  end.

Definition run (db : gmap string Entry) (parser : QCommandLineParser)
    (c : Clipboard) : option (Run Clipboard) :=
  executeWithDatabase (gmap string Entry) findEntryByPath findAttributes
    createSeparatedList Clipboard clipText db parser c.

Definition email : Entry :=
  {| hasTotp := true; totp := "123456";
     attributes := {[ "password" := "secret123"; "UserName" := "alice";
                      "URL" := "https://example.org"; "UserId" := "42" ]} |}.

Definition plain : Entry :=
  {| hasTotp := false; totp := "";
     attributes := {[ "password" := "hunter2" ]} |}.

Definition db : gmap string Entry :=
  {[ "Root/Email" := email; "Root/Plain" := plain ]}.

(** The same database after the password of the second entry was changed. *)
Definition plainChanged : Entry :=
  {| hasTotp := false; totp := "";
     attributes := {[ "password" := "correct horse" ]} |}.

Definition dbChanged : gmap string Entry :=
  {[ "Root/Email" := email; "Root/Plain" := plainChanged ]}.

Definition fresh : Clipboard := {| content := "old"; helper := [] |}.

Definition cli (args : list string) (quiet : bool) (attr : option string)
    (totpFlag : bool) : QCommandLineParser :=
  {| positionalArguments := args; quietSet := quiet;
     attributeArg := attr; totpSet := totpFlag |}.

End Sample.


(** ** More ways to look at a command line and at a trace *)

(** The same command line with other positional arguments. *)
Definition withArguments (args : list string) (parser : QCommandLineParser)
  : QCommandLineParser :=
  {| positionalArguments := args;
     quietSet := quietSet parser;
     attributeArg := attributeArg parser;
     totpSet := totpSet parser |}.

(** The same command line with [--attribute] given or not. *)
Definition withAttribute (attr : option string) (parser : QCommandLineParser)
  : QCommandLineParser :=
  {| positionalArguments := positionalArguments parser;
     quietSet := quietSet parser;
     attributeArg := attr;
     totpSet := totpSet parser |}.

(** The condition of line 65. *)
Definition rejectedTimeout (timeout : string) : bool :=
  negb (isEmpty timeout) && (QtInt.toInt timeout <=? 0).

Definition isFindEntryByPath (e : Event) : bool :=
  match e with FindEntryByPath _ => true | _ => false end.

(** The calls of lines 95 and 97. *)
Definition isResolutionCall (e : Event) : bool :=
  match e with Totp | FindAttributes _ => true | _ => false end.

(** Everything a run does apart from its calls of the clipboard
    collaborator. *)
Definition notClipText (e : Event) : bool := negb (isClipText e).

(** * Properties *)

(** ** The integer conversion reads what it should *)

Module QtIntFacts.
Import QtInt.

Example toInt_3 : QtInt.toInt "3" = 3. Proof. reflexivity. Qed.
Example toInt_neg5 : QtInt.toInt "-5" = -5. Proof. reflexivity. Qed.
Example toInt_abc : QtInt.toInt "abc" = 0. Proof. reflexivity. Qed.
Example toInt_3x : QtInt.toInt "3x" = 0. Proof. reflexivity. Qed.
Example toInt_big : QtInt.toInt "2147483648" = 0. Proof. reflexivity. Qed.
Example toInt_max : QtInt.toInt "2147483647" = 2147483647. Proof. reflexivity. Qed.
Example toInt_ws : QtInt.toInt " 12 " = 12. Proof. reflexivity. Qed.

Lemma skipSpaces_split (l : list ascii) :
  exists ws, l = (ws ++ skipSpaces l)%list /\ forallb isSpace ws = true.
Proof.
  induction l as [|c l (ws & Hl & Hws)]; [by exists []|].
  cbn [skipSpaces]. destruct (isSpace c) eqn:Hc.
  - exists (c :: ws). cbn. rewrite Hc, Hws. split; [by f_equal | done].
  - by exists [].
Qed.

Lemma forallb_rev (f : ascii -> bool) (l : list ascii) :
  forallb f (rev l) = forallb f l.
Proof.
  induction l as [|c l IH]; [reflexivity|].
  cbn. rewrite forallb_app, IH. cbn. rewrite andb_true_r. apply andb_comm.
Qed.

Lemma trimmed_split (l : list ascii) :
  exists ws1 ws2,
    l = (ws1 ++ trimmed l ++ ws2)%list /\
    forallb isSpace ws1 = true /\ forallb isSpace ws2 = true.
Proof.
  destruct (skipSpaces_split l) as (ws1 & Hl & Hws1).
  destruct (skipSpaces_split (rev (skipSpaces l))) as (ws2 & Hr & Hws2).
  exists ws1, (rev ws2). split; [|by rewrite forallb_rev].
  unfold trimmed. rewrite <- rev_app_distr, <- Hr, rev_involutive. exact Hl.
Qed.

Lemma readDigits_spec (l : list ascii) (acc z : Z) :
  readDigits acc l = Some z ->
  forallb isDigit l = true /\
  z = fold_left (fun a c => 10 * a + digitValue c) l acc.
Proof.
  revert acc. induction l as [|c l IH]; intros acc; cbn.
  - by intros [= ->].
  - destruct (isDigit c); [|discriminate]. intros H. by apply IH in H.
Qed.

Lemma readUnsigned_spec (l : list ascii) (z : Z) :
  readUnsigned l = Some z ->
  l <> [] /\ forallb isDigit l = true /\ z = digitsValue l.
Proof.
  destruct l as [|c l]; [discriminate|]. unfold readUnsigned. intros H.
  apply readDigits_spec in H as [? ?]. done.
Qed.

Lemma readSigned_spec (l : list ascii) (z : Z) :
  readSigned l = Some z ->
  exists sg k ds,
    l = (sg ++ ds)%list /\ Sign sg k /\ ds <> [] /\
    forallb isDigit ds = true /\ z = k * digitsValue ds.
Proof.
  destruct l as [|c l]; [discriminate|]. cbn [readSigned].
  destruct (Ascii.eqb c "-") eqn:Hm; [|destruct (Ascii.eqb c "+") eqn:Hp].
  - apply Ascii.eqb_eq in Hm as ->.
    destruct (readUnsigned l) as [u|] eqn:Hu; [|discriminate].
    intros [= <-]. apply readUnsigned_spec in Hu as (? & ? & ->).
    exists ["-"%char], (-1), l. repeat split; try done; try constructor; try lia.
  - apply Ascii.eqb_eq in Hp as ->. intros Hu.
    apply readUnsigned_spec in Hu as (? & ? & ->).
    exists ["+"%char], 1, l. repeat split; try done; try constructor; try lia.
  - intros Hu. apply readUnsigned_spec in Hu as (? & ? & ->).
    exists [], 1, (c :: l). repeat split; try done; try constructor; try lia.
Qed.

(** Whatever the conversion accepts is a decimal representation of the
    value it returns. *)
Lemma toLongLong_decimal (s : string) (z : Z) :
  toLongLong s = Some z -> DecimalInt s z /\ LLONG_MIN <= z <= LLONG_MAX.
Proof.
  unfold toLongLong.
  destruct (readSigned _) as [v|] eqn:Hv; [|discriminate].
  destruct (_ && _) eqn:Hrange; [|discriminate]. intros [= <-].
  split; [|lia].
  apply readSigned_spec in Hv as (sg & k & ds & Ht & Hsg & Hne & Hds & ->).
  destruct (trimmed_split (list_ascii_of_string s)) as (ws1 & ws2 & Hs & H1 & H2).
  exists ws1, sg, k, ds, ws2. rewrite Ht, <- app_assoc in Hs. done.
Qed.

Lemma toInt_nonzero (s : string) :
  toInt s <> 0 -> IntRepresentation s.
Proof.
  unfold toInt. destruct (toLongLong s) as [z|] eqn:Hz; [|done].
  destruct (_ && _) eqn:Hrange; [|done]. intros _.
  apply toLongLong_decimal in Hz as [Hz _]. exists z. split; [done | lia].
Qed.

(** And every decimal representation is read as its value. *)

Lemma skipSpaces_spaces (ws l : list ascii) :
  forallb isSpace ws = true -> skipSpaces (ws ++ l) = skipSpaces l.
Proof.
  induction ws as [|c ws IH]; [done|]. cbn.
  destruct (isSpace c); [exact IH | discriminate].
Qed.

Lemma skipSpaces_stops (c : ascii) (l : list ascii) :
  isSpace c = false -> skipSpaces (c :: l) = c :: l.
Proof. intros H. cbn. by rewrite H. Qed.

Lemma digit_not_space (c : ascii) : isDigit c = true -> isSpace c = false.
Proof.
  unfold isDigit, isSpace. generalize (N_of_ascii c). intros n H.
  apply andb_true_iff in H as [H1 H2].
  apply N.leb_le in H1, H2.
  repeat (apply orb_false_intro);
    [ apply andb_false_iff; right; apply N.leb_gt; lia
    | apply N.eqb_neq; lia .. ].
Qed.

Lemma digit_not_sign (c : ascii) :
  isDigit c = true -> Ascii.eqb c "-" = false /\ Ascii.eqb c "+" = false.
Proof.
  intros H. split; apply Ascii.eqb_neq; intros ->; vm_compute in H; discriminate.
Qed.

Lemma trimmed_core (ws1 ws2 core' : list ascii) (first last : ascii)
    (core : list ascii) :
  forallb isSpace ws1 = true -> forallb isSpace ws2 = true ->
  core = first :: core' -> isSpace first = false ->
  (exists front, core = (front ++ [last])%list) -> isSpace last = false ->
  trimmed (ws1 ++ core ++ ws2) = core.
Proof.
  intros H1 H2 Hfirst Hf (front & Hlast) Hl. unfold trimmed.
  rewrite skipSpaces_spaces by done.
  rewrite Hfirst at 1. cbn [app]. rewrite skipSpaces_stops by done.
  change (first :: (core' ++ ws2)%list) with ((first :: core') ++ ws2)%list.
  rewrite <- Hfirst, rev_app_distr.
  rewrite skipSpaces_spaces by (by rewrite forallb_rev).
  rewrite Hlast, rev_app_distr. cbn [rev app].
  rewrite skipSpaces_stops by done.
  change (last :: rev front) with (rev [last] ++ rev front)%list.
  by rewrite <- rev_app_distr, rev_involutive.
Qed.

Lemma readDigits_digits (l : list ascii) (acc : Z) :
  forallb isDigit l = true ->
  readDigits acc l = Some (fold_left (fun a c => 10 * a + digitValue c) l acc).
Proof.
  revert acc. induction l as [|c l IH]; intros acc H; [done|].
  cbn in *. apply andb_true_iff in H as [-> H]. by apply IH.
Qed.

Lemma readUnsigned_digits (ds : list ascii) :
  ds <> [] -> forallb isDigit ds = true ->
  readUnsigned ds = Some (digitsValue ds).
Proof.
  intros Hne Hds. destruct ds; [done|]. by apply readDigits_digits.
Qed.

Lemma readSigned_digits (sg ds : list ascii) (k : Z) :
  Sign sg k -> ds <> [] -> forallb isDigit ds = true ->
  readSigned (sg ++ ds) = Some (k * digitsValue ds).
Proof.
  intros Hsg Hne Hds. pose proof (readUnsigned_digits ds Hne Hds) as Hu.
  destruct Hsg; cbn [app readSigned].
  - destruct ds as [|c ds]; [done|].
    assert (isDigit c = true) as Hc
      by (cbn in Hds; by apply andb_true_iff in Hds as [? _]).
    cbn [readSigned]. apply digit_not_sign in Hc as [-> ->].
    rewrite Hu. f_equal; lia.
  - cbn. rewrite Hu. f_equal; lia.
  - cbn. rewrite Hu. cbn. f_equal; lia.
Qed.

Lemma decimal_reads (s : string) (z : Z) :
  DecimalInt s z -> readSigned (trimmed (list_ascii_of_string s)) = Some z.
Proof.
  intros (ws1 & sg & k & ds & ws2 & Hs & H1 & H2 & Hsg & Hne & Hds & ->).
  rewrite Hs.
  assert (Hlast : exists front last,
             ds = (front ++ [last])%list /\ isDigit last = true).
  { destruct (rev ds) as [|last front] eqn:Hrev.
    - apply (f_equal (@rev ascii)) in Hrev. rewrite rev_involutive in Hrev. done.
    - exists (rev front), last.
      assert (forallb isDigit (rev ds) = true) as Hr by (by rewrite forallb_rev).
      rewrite Hrev in Hr. cbn in Hr. apply andb_true_iff in Hr as [? _].
      apply (f_equal (@rev ascii)) in Hrev. rewrite rev_involutive in Hrev.
      done. }
  destruct Hlast as (front & last & Hfront & Hl).
  assert (Hfirst : exists first core',
             (sg ++ ds)%list = first :: core' /\ isSpace first = false).
  { destruct Hsg; cbn [app]; [|by eexists _, _ ..].
    destruct ds as [|c ds]; [done|]. exists c, ds. split; [done|].
    cbn in Hds. apply andb_true_iff in Hds as [? _]. by apply digit_not_space. }
  destruct Hfirst as (first & core' & Hcore & Hf).
  rewrite (app_assoc sg ds ws2).
  erewrite trimmed_core; [by apply readSigned_digits | done | done | exact Hcore
                         | exact Hf | | by apply digit_not_space].
  exists (sg ++ front)%list. by rewrite Hfront, app_assoc.
Qed.

Lemma decimal_unique (s : string) (z z' : Z) :
  DecimalInt s z -> DecimalInt s z' -> z = z'.
Proof. intros H H'. apply decimal_reads in H, H'. congruence. Qed.

(** The conversion, said with the representations: the value when the
    string stands for an [int], 0 otherwise. *)
Lemma toInt_spec (s : string) :
  (forall z, DecimalInt s z -> INT_MIN <= z <= INT_MAX -> toInt s = z) /\
  (~ IntRepresentation s -> toInt s = 0).
Proof.
  split.
  - intros z Hz Hrange. unfold toInt, toLongLong.
    rewrite (decimal_reads _ _ Hz).
    unfold INT_MIN, INT_MAX, LLONG_MIN, LLONG_MAX in *.
    replace ((- 2 ^ 63 <=? z) && (z <=? 2 ^ 63 - 1)) with true
      by (symmetry; apply andb_true_iff; lia).
    replace ((- 2 ^ 31 <=? z) && (z <=? 2 ^ 31 - 1)) with true
      by (symmetry; apply andb_true_iff; lia).
    reflexivity.
  - intros Hno. destruct (decide (toInt s = 0)) as [|Hnz]; [done|].
    by apply toInt_nonzero in Hnz.
Qed.

Lemma not_a_representation (s : string) :
  readSigned (trimmed (list_ascii_of_string s)) = None ->
  ~ IntRepresentation s.
Proof. intros Hnone (z & Hz & _). apply decimal_reads in Hz. congruence. Qed.

Lemma out_of_int_range (s : string) (z : Z) :
  readSigned (trimmed (list_ascii_of_string s)) = Some z ->
  ~ INT_MIN <= z <= INT_MAX ->
  ~ IntRepresentation s.
Proof.
  intros Hsome Hout (z' & Hz & Hrange). apply decimal_reads in Hz.
  assert (z' = z) by congruence. subst. done.
Qed.

End QtIntFacts.

(** ** The command *)

Section ClipProperties.

Context {Database : Type}
  (findEntryByPath : Database -> string -> option Entry)
  (findAttributes : gmap string string -> string -> list string)
  (createSeparatedList : list string -> string)
  {Clipboard : Type}
  (clipText : string -> Clipboard -> Z * Clipboard).

Local Abbreviation run :=
  (executeWithDatabase Database findEntryByPath findAttributes
     createSeparatedList Clipboard clipText).
Local Abbreviation exec :=
  (execute Database findEntryByPath findAttributes
     createSeparatedList Clipboard clipText).

Lemma countdown_run (out : Device) (n : nat) (lastLine : string) (c : Clipboard) :
  countdown Clipboard out n lastLine c
  = (Next (lastLineAfter n lastLine), countdownTrace out n lastLine, c).
Proof.
  revert lastLine. induction n as [|n IH]; intros lastLine; [reflexivity|].
  cbn [countdown]. unfold mbind, M_bind, bind, put, flush, sleep_for, emit.
  rewrite IH. cbn. destruct n; reflexivity.
Qed.

Ltac run_step :=
  cbn beta iota delta [negb andb orb app finish fst snd emit ret return_
                       length nth Nat.ltb Nat.leb Nat.eqb].

Theorem execute_outcome database parser entryPath timeout c :
  Outcome Database findEntryByPath findAttributes createSeparatedList
    Clipboard clipText database parser entryPath timeout c
    (finish Clipboard (exec database parser entryPath timeout c)).
Proof.
  unfold execute, mbind, M_bind, bind, when, put, endl, flush, emit, ret, return_,
    callFindEntryByPath, callFindAttributes, callTotp, callClipText.
  unfold mbind, M_bind, bind.
  assert (Hacc : isEmpty timeout = false -> (QtInt.toInt timeout <=? 0) = false ->
                 acceptedTimeout timeout) by (intros _ ?; right; lia).
  destruct (isEmpty timeout) eqn:He; run_step;
    [ assert (Hok : acceptedTimeout timeout) by (left; exact He)
    | destruct (QtInt.toInt timeout <=? 0) eqn:Hle; run_step;
      [ apply InvalidTimeout; [exact He | lia]
      | assert (Hok : acceptedTimeout timeout) by auto ] ].
  all: destruct (findEntryByPath database entryPath) as [entry|] eqn:Hfind;
    run_step; [| by apply EntryNotFound ].
  all: destruct (isSet parser AttributeOption && isSet parser TotpOption) eqn:Hboth;
    run_step;
    [ apply andb_prop in Hboth as [? ?]; by eapply ConflictingOptions |].
  all: fold (totpRequested parser);
    destruct (totpRequested parser) eqn:Hreq; run_step;
    [ destruct (hasTotp entry) eqn:Htotp; run_step;
      [ pose proof (ResolvesTotp findAttributes parser entry Hreq Htotp) as Hres
      | by eapply NoTotpConfigured ]
    | destruct (findAttributes (attributes entry) (optionValue parser))
        as [|key [|key' attrs]] eqn:Hattrs; run_step;
      [ by eapply AttributeNotFound
      | pose proof (ResolvesAttribute findAttributes parser entry key Hreq Hattrs)
          as Hres
      | rewrite <- Hattrs; eapply AttributeAmbiguous; eauto;
        rewrite Hattrs; cbn; lia ] ].
  all: match type of Hres with
       | Resolves _ _ _ ?cs _ ?value =>
           destruct (clipText value c) as [code c1] eqn:Hclip; run_step;
           (destruct (code =? EXIT_SUCCESS) eqn:Hcode; run_step;
            [ apply Z.eqb_eq in Hcode; subst code
            | apply Z.eqb_neq in Hcode;
              by eapply ClipboardWriteFailed with (calls := cs) ])
       end.
  all: match type of Hres with
       | Resolves _ _ _ ?cs _ _ =>
           first
             [ change (0 =? 0) with true; run_step;
               by eapply Copied with (calls := cs)
             | replace (QtInt.toInt timeout =? 0) with false by lia;
               run_step; rewrite countdown_run; run_step;
               destruct (clipText "" c1) as [code2 c2] eqn:Hclear; run_step;
               eapply Cleared with (calls := cs); eauto; lia ]
       end.
Qed.

Local Abbreviation outcome :=
  (Outcome Database findEntryByPath findAttributes createSeparatedList
     Clipboard clipText).

Lemma resolves_deterministic parser entry calls key value calls' key' value' :
  Resolves findAttributes parser entry calls key value ->
  Resolves findAttributes parser entry calls' key' value' ->
  calls = calls' /\ key = key' /\ value = value'.
Proof.
  intros H1 H2. destruct H1; destruct H2; try congruence; auto.
  assert (key = key0) by congruence. subst. auto.
Qed.

(** The rules are also complete: a run that a rule describes is the run
    of the function. *)
Lemma outcome_run database parser entryPath timeout c r :
  outcome database parser entryPath timeout c r ->
  finish Clipboard (exec database parser entryPath timeout c) = r.
Proof.
  intros H.
  unfold execute, mbind, M_bind, bind, when, put, endl, flush, emit, ret, return_,
    callFindEntryByPath, callFindAttributes, callTotp, callClipText.
  unfold mbind, M_bind, bind. fold (totpRequested parser).
  destruct H;
    repeat match goal with
      | H : acceptedTimeout _ |- _ =>
          destruct H as [H|H]; [| destruct (isEmpty timeout) eqn:? ]
      | H : Resolves _ _ _ _ _ _ |- _ => destruct H
      | H : ?code <> EXIT_SUCCESS |- _ =>
          apply Z.eqb_neq in H
      | H : (1 < length ?l)%nat |- _ =>
          let E := fresh "E" in
          destruct l as [|? [|? ?]] eqn:E; cbn in H; [lia | lia | clear H]
      end.
  all: repeat first
      [ progress run_step
      | progress change (EXIT_SUCCESS =? EXIT_SUCCESS) with true
      | match goal with
        | H : ?x = _ |- context [?x] => rewrite H
        | H : QtInt.toInt ?t <= 0 |- context [QtInt.toInt ?t <=? 0] =>
            replace (QtInt.toInt t <=? 0) with true by lia
        | H : 0 < QtInt.toInt ?t |- context [QtInt.toInt ?t <=? 0] =>
            replace (QtInt.toInt t <=? 0) with false by lia
        | H : 0 < QtInt.toInt ?t |- context [QtInt.toInt ?t =? 0] =>
            replace (QtInt.toInt t =? 0) with false by lia
        | |- context [countdown] => rewrite countdown_run
        end ].
  all: reflexivity.
Qed.

Lemma outcome_deterministic database parser entryPath timeout c r r' :
  outcome database parser entryPath timeout c r ->
  outcome database parser entryPath timeout c r' ->
  r = r'.
Proof.
  intros H1 H2. apply outcome_run in H1, H2. congruence.
Qed.

(** *** Reading traces *)

Lemma append_assoc (s1 s2 s3 : string) : (s1 +:+ s2) +:+ s3 = s1 +:+ (s2 +:+ s3).
Proof.
  induction s1 as [|a s1 IH]; [reflexivity|].
  change (String a ((s1 +:+ s2) +:+ s3) = String a (s1 +:+ (s2 +:+ s3))).
  by rewrite IH.
Qed.

Lemma written_app (d : Device) (t1 t2 : list Event) :
  written d (t1 ++ t2) = written d t1 +:+ written d t2.
Proof.
  induction t1 as [|e t1 IH]; [reflexivity|].
  destruct e; cbn [written app]; try exact IH.
  case_decide; [by rewrite IH, append_assoc | exact IH].
Qed.

Lemma written_line (d : Device) (msg : string) :
  written d (line d msg) = msg +:+ LF.
Proof. cbn [written line]. by rewrite !decide_True by done. Qed.

Lemma written_line_other (d d' : Device) (msg : string) :
  d' <> d -> written d (line d' msg) = "".
Proof. intros Hne. cbn [written line]. by rewrite !decide_False by done. Qed.

Lemma written_erase_other (d d' : Device) (lastLine : string) :
  d' <> d -> written d (erase d' lastLine) = "".
Proof. intros Hne. cbn [written erase]. by rewrite !decide_False by done. Qed.

Lemma written_countdown_other (d out : Device) (n : nat) (lastLine : string) :
  out <> d -> written d (countdownTrace out n lastLine) = "".
Proof.
  intros Hne. revert lastLine.
  induction n as [|n IH]; intros lastLine; [reflexivity|].
  cbn [countdownTrace written]. rewrite !decide_False by done. apply IH.
Qed.

Lemma written_calls (d : Device) parser entry calls key value :
  Resolves findAttributes parser entry calls key value -> written d calls = "".
Proof. by destruct 1. Qed.

Lemma status_line_spaces (n : nat) :
  String.prefix "Clearing the clipboard in " (spaces n) = false.
Proof. by destruct n. Qed.

Lemma status_line_clearing (k : Z) :
  String.prefix "Clearing the clipboard in " (msgClearing k) = true.
Proof.
  unfold msgClearing. generalize (pretty k +:+ " second(s)...").
  intros s. by destruct s.
Qed.

Lemma countdown_status_lines (out : Device) (n : nat) (lastLine : string) :
  List.filter isStatusLine (countdownTrace out n lastLine)
  = map (fun k => Write out (msgClearing k)) (countdownFrom n).
Proof.
  revert lastLine. induction n as [|n IH]; intros lastLine; [reflexivity|].
  cbn [countdownTrace countdownFrom map List.filter isStatusLine].
  rewrite status_line_spaces, status_line_clearing.
  change (String.prefix "Clearing the clipboard in " CR) with false.
  cbn iota. by rewrite IH.
Qed.

Lemma countdown_sleeps (out : Device) (n : nat) (lastLine : string) :
  List.filter isSleep (countdownTrace out n lastLine) = repeat (Sleep 1000) n.
Proof.
  revert lastLine. induction n as [|n IH]; intros lastLine; [reflexivity|].
  cbn [countdownTrace List.filter isSleep repeat]. by rewrite IH.
Qed.

Lemma countdown_no_clipboard (out : Device) (n : nat) (lastLine : string) :
  List.filter isClipText (countdownTrace out n lastLine) = [].
Proof.
  revert lastLine. induction n as [|n IH]; intros lastLine; [reflexivity|].
  cbn [countdownTrace List.filter isClipText]. apply IH.
Qed.

Lemma countdown_plain (f : Event -> bool) (out : Device) (n : nat)
    (lastLine : string) :
  (forall d s, f (Write d s) = false) -> (forall d, f (Flush d) = false) ->
  (forall ms, f (Sleep ms) = false) ->
  List.filter f (countdownTrace out n lastLine) = [].
Proof.
  intros Hw Hf Hs. revert lastLine.
  induction n as [|n IH]; intros lastLine; [reflexivity|].
  cbn [countdownTrace List.filter]. by rewrite !Hw, Hf, Hs.
Qed.

Lemma calls_plain (f : Event -> bool) parser entry calls key value :
  Resolves findAttributes parser entry calls key value ->
  f Totp = false -> (forall name, f (FindAttributes name) = false) ->
  List.filter f calls = [].
Proof. intros [] Ht Hf; cbn; by rewrite ?Ht, ?Hf. Qed.

(** From the function to the rules and back, with the positional
    arguments read as lines 56-61 do. *)
Lemma run_outcome database parser c r :
  run database parser c = Some r ->
  exists entryPath,
    positionalArguments parser !! 1%nat = Some entryPath /\
    outcome database parser entryPath
      (timeoutArgument (positionalArguments parser)) c r.
Proof.
  unfold executeWithDatabase.
  destruct (positionalArguments parser !! 1%nat) as [entryPath|]; [|discriminate].
  intros [= <-]. exists entryPath. split; [reflexivity | apply execute_outcome].
Qed.

Lemma outcome_is_run database parser entryPath c r :
  positionalArguments parser !! 1%nat = Some entryPath ->
  outcome database parser entryPath
    (timeoutArgument (positionalArguments parser)) c r ->
  run database parser c = Some r.
Proof.
  intros Hargs Hout. unfold executeWithDatabase. rewrite Hargs.
  f_equal. by apply outcome_run.
Qed.

(** The command returns whenever it is given its two positional
    arguments. *)
Lemma run_total database parser c :
  (2 <= length (positionalArguments parser))%nat ->
  exists r, run database parser c = Some r.
Proof.
  intros Hlen. unfold executeWithDatabase.
  destruct (positionalArguments parser !! 1%nat) eqn:Hargs; [eauto|].
  apply lookup_ge_None in Hargs. lia.
Qed.

(** C1, as amended.  With both [--attribute] and [--totp] set and a
    timeout that is accepted, the entry is looked up first: when it is
    there the command fails with the conflicting-options message on the
    error stream, right after the lookup, without resolving anything and
    without touching the clipboard; when it is not, the command fails
    with the entry-not-found message instead. *)
Theorem conflicting_options_after_lookup database parser entryPath c :
  positionalArguments parser !! 1%nat = Some entryPath ->
  acceptedTimeout (timeoutArgument (positionalArguments parser)) ->
  isSet parser AttributeOption = true ->
  isSet parser TotpOption = true ->
  run database parser c
  = Some {| exitCode := EXIT_FAILURE;
            trace := FindEntryByPath entryPath
                       :: line STDERR
                            (match findEntryByPath database entryPath with
                             | Some _ => msgConflictingOptions
                             | None => msgEntryNotFound entryPath
                             end);
            clipboard := c |}.
Proof.
  intros Hargs Hok Hattr Htotp. apply outcome_is_run with entryPath; [done|].
  destruct (findEntryByPath database entryPath) as [entry|] eqn:Hfind.
  - by eapply ConflictingOptions.
  - by apply EntryNotFound.
Qed.

(** A run that ends well after a timeout was given is a run that counted
    down and cleared. *)
Lemma successful_countdown_run database parser c r :
  run database parser c = Some r ->
  isEmpty (timeoutArgument (positionalArguments parser)) = false ->
  exitCode r = EXIT_SUCCESS ->
  exists entryPath entry calls key value c1 code2,
    let timeout := timeoutArgument (positionalArguments parser) in
    let out := outputDevice parser in
    let n := Z.to_nat (QtInt.toInt timeout) in
    0 < QtInt.toInt timeout /\
    findEntryByPath database entryPath = Some entry /\
    Resolves findAttributes parser entry calls key value /\
    clipText value c = (EXIT_SUCCESS, c1) /\
    clipText "" c1 = (code2, clipboard r) /\
    trace r = FindEntryByPath entryPath
                :: (calls ++ ClipText value EXIT_SUCCESS
                      :: line out (msgCopied key)
                      ++ countdownTrace out n ""
                      ++ ClipText "" code2
                      :: erase out (lastLineAfter n "")
                      ++ line out msgCleared)%list.
Proof.
  intros Hrun He Hexit.
  apply run_outcome in Hrun as (entryPath & _ & Hout).
  destruct Hout; cbn in Hexit; try discriminate; try congruence.
  exists entryPath, entry, calls, key, value, c1, code2. cbn. auto 10.
Qed.

(** C2, as amended.  In a successful countdown run the clearing
    confirmation goes to the same stream as the copy confirmation, as the
    last line of the run: on standard output when the quiet flag is not
    set; to the null device when it is, so that quiet suppresses the
    clearing message together with the copy confirmation and standard
    output receives nothing. *)
Theorem cleared_message_shares_output_stream database parser c r :
  run database parser c = Some r ->
  isEmpty (timeoutArgument (positionalArguments parser)) = false ->
  exitCode r = EXIT_SUCCESS ->
  (exists pre key,
     trace r = (pre ++ line (outputDevice parser) msgCleared)%list /\
     In (Write (outputDevice parser) (msgCopied key)) pre) /\
  (isSet parser QuietOption = true -> written STDOUT (trace r) = "") /\
  (isSet parser QuietOption = false ->
     exists before, written STDOUT (trace r) = before +:+ msgCleared +:+ LF).
Proof.
  intros Hrun He Hexit.
  destruct (successful_countdown_run _ _ _ _ Hrun He Hexit)
    as (entryPath & entry & calls & key & value & c1 & code2 & Hr).
  cbn zeta in Hr. destruct Hr as (Hpos & Hfind & Hres & Hclip & Hclear & Htrace).
  set (out := outputDevice parser) in *.
  set (n := Z.to_nat _) in *.
  assert (Hsplit : trace r
    = ((FindEntryByPath entryPath
          :: calls ++ ClipText value EXIT_SUCCESS :: line out (msgCopied key)
          ++ countdownTrace out n ""
          ++ ClipText "" code2 :: erase out (lastLineAfter n ""))
       ++ line out msgCleared)%list).
  { rewrite Htrace. cbn [app]. f_equal. rewrite <- !app_assoc. cbn [app].
    do 2 f_equal. by rewrite <- !app_assoc. }
  split; [|split].
  - eexists _, key. split; [exact Hsplit|].
    right. apply in_or_app. right. right. left. reflexivity.
  - intros Hq. rewrite Htrace.
    assert (Hdev : out <> STDOUT) by (unfold out, outputDevice; by rewrite Hq).
    cbn [written]. rewrite written_app, (written_calls _ _ _ _ _ _ Hres).
    cbn [written]. rewrite written_app, written_line_other by done.
    rewrite written_app, written_countdown_other by done.
    cbn [written]. by rewrite written_app, written_erase_other, written_line_other.
  - intros Hq. rewrite Hsplit.
    assert (Hdev : out = STDOUT) by (unfold out, outputDevice; by rewrite Hq).
    rewrite written_app, Hdev, written_line. eauto.
Qed.

(** *** Resolution *)

Lemma totp_not_requested parser :
  totpRequested parser = false ->
  isSet parser AttributeOption && isSet parser TotpOption = false.
Proof.
  unfold totpRequested. intros H. apply orb_false_elim in H as [-> _].
  apply andb_false_r.
Qed.

(** What a request for the TOTP gives: the failure when the entry has
    none, and otherwise the current code on its way to the clipboard,
    under the name the attribute option holds. *)
Lemma totp_request_outcome database parser entryPath entry c :
  positionalArguments parser !! 1%nat = Some entryPath ->
  acceptedTimeout (timeoutArgument (positionalArguments parser)) ->
  findEntryByPath database entryPath = Some entry ->
  isSet parser AttributeOption && isSet parser TotpOption = false ->
  totpRequested parser = true ->
  (hasTotp entry = false ->
     run database parser c
     = Some {| exitCode := EXIT_FAILURE;
               trace := FindEntryByPath entryPath
                          :: line STDERR (msgNoTotp entryPath);
               clipboard := c |}) /\
  (hasTotp entry = true ->
     exists r code rest,
       run database parser c = Some r /\
       trace r = FindEntryByPath entryPath :: Totp
                   :: ClipText (totp entry) code :: rest /\
       (code = EXIT_SUCCESS ->
        exists rest',
          rest = (line (outputDevice parser) (msgCopied (optionValue parser))
                    ++ rest')%list)).
Proof.
  intros Hargs Hok Hfind Hboth Hreq. split; intros Htotp.
  - apply outcome_is_run with entryPath; [done|]. by eapply NoTotpConfigured.
  - pose proof (ResolvesTotp findAttributes parser entry Hreq Htotp) as Hres.
    destruct (clipText (totp entry) c) as [code c1] eqn:Hclip.
    destruct (decide (code = EXIT_SUCCESS)) as [->|Hcode].
    + destruct (isEmpty (timeoutArgument (positionalArguments parser))) eqn:He.
      * eexists _, EXIT_SUCCESS, _. split; [|split].
        -- apply outcome_is_run with entryPath; [done|]. by eapply Copied.
        -- reflexivity.
        -- intros _. exists []. by rewrite app_nil_r.
      * destruct Hok as [Hok|Hpos]; [congruence|].
        destruct (clipText "" c1) as [code2 c2] eqn:Hclear.
        eexists _, EXIT_SUCCESS, _. split; [|split].
        -- apply outcome_is_run with entryPath; [done|]. by eapply Cleared.
        -- reflexivity.
        -- intros _. eexists. reflexivity.
    + eexists _, code, _. split; [|split].
      * apply outcome_is_run with entryPath; [done|].
        by eapply ClipboardWriteFailed.
      * reflexivity.
      * done.
Qed.

(** C5.  When the query matches exactly one attribute key of the entry
    and the TOTP is not requested, the command (given an accepted
    timeout, the entry found and a clipboard write that succeeds) succeeds:
    the value written to the clipboard is the value stored under the
    matched key, and the confirmation names the matched key, not the
    query. *)
Theorem unique_match_copies_stored_value
    database parser entryPath entry key v c :
  positionalArguments parser !! 1%nat = Some entryPath ->
  acceptedTimeout (timeoutArgument (positionalArguments parser)) ->
  findEntryByPath database entryPath = Some entry ->
  totpRequested parser = false ->
  findAttributes (attributes entry) (optionValue parser) = [key] ->
  attributes entry !! key = Some v ->
  (clipText v c).1 = EXIT_SUCCESS ->
  exists r rest,
    run database parser c = Some r /\
    exitCode r = EXIT_SUCCESS /\
    trace r = FindEntryByPath entryPath
                :: FindAttributes (optionValue parser)
                :: ClipText v EXIT_SUCCESS
                :: (line (outputDevice parser) (msgCopied key) ++ rest)%list.
Proof.
  intros Hargs Hok Hfind Hreq Hkeys Hv Hclip.
  pose proof (totp_not_requested _ Hreq) as Hboth.
  pose proof (ResolvesAttribute findAttributes parser entry key Hreq Hkeys) as Hres.
  unfold attributeValue in Hres. rewrite Hv in Hres. cbn [default] in Hres.
  destruct (clipText v c) as [code c1] eqn:Hc. cbn in Hclip. subst code.
  destruct (isEmpty (timeoutArgument (positionalArguments parser))) eqn:He.
  - eexists _, []. split; [|split].
    + apply outcome_is_run with entryPath; [done|]. by eapply Copied.
    + reflexivity.
    + cbn. reflexivity.
  - destruct Hok as [Hok|Hpos]; [congruence|].
    destruct (clipText "" c1) as [code2 c2] eqn:Hclear.
    eexists _, _. split; [|split].
    + apply outcome_is_run with entryPath; [done|]. by eapply Cleared.
    + reflexivity.
    + cbn. reflexivity.
Qed.

Lemma output_device_not_stderr parser : outputDevice parser <> STDERR.
Proof. unfold outputDevice. by destruct (isSet parser QuietOption). Qed.

(** C6.  When the TOTP is not requested (timeout accepted, entry found):
    a query that matches no key ends the run with the attribute-not-found
    message for the query on the command's output stream, nothing on the
    error stream, a non-zero exit status and the clipboard untouched; a
    query that matches several keys ends it with the ambiguity message on
    the error stream, listing the keys exactly as the matcher returned
    them. *)
Theorem unmatched_and_ambiguous_queries database parser entryPath entry c :
  positionalArguments parser !! 1%nat = Some entryPath ->
  acceptedTimeout (timeoutArgument (positionalArguments parser)) ->
  findEntryByPath database entryPath = Some entry ->
  totpRequested parser = false ->
  let query := optionValue parser in
  let keys := findAttributes (attributes entry) query in
  (keys = [] ->
     exists r,
       run database parser c = Some r /\
       exitCode r = EXIT_FAILURE /\ exitCode r <> EXIT_SUCCESS /\
       trace r = FindEntryByPath entryPath :: FindAttributes query
                   :: line (outputDevice parser) (msgAttributeNotFound query) /\
       written (outputDevice parser) (trace r)
       = msgAttributeNotFound query +:+ LF /\
       written STDERR (trace r) = "" /\
       List.filter isClipText (trace r) = [] /\
       clipboard r = c) /\
  ((1 < length keys)%nat ->
     exists r,
       run database parser c = Some r /\
       exitCode r = EXIT_FAILURE /\ exitCode r <> EXIT_SUCCESS /\
       trace r = FindEntryByPath entryPath :: FindAttributes query
                   :: line STDERR (msgAmbiguous query (createSeparatedList keys)) /\
       written STDERR (trace r)
       = msgAmbiguous query (createSeparatedList keys) +:+ LF /\
       List.filter isClipText (trace r) = [] /\
       clipboard r = c).
Proof.
  intros Hargs Hok Hfind Hreq query keys.
  pose proof (totp_not_requested _ Hreq) as Hboth.
  split; intros Hkeys.
  - eexists. split.
    { apply outcome_is_run with entryPath; [done|]. by eapply AttributeNotFound. }
    cbn [exitCode trace clipboard].
    repeat split; try done.
    + cbn [written]. apply written_line.
    + cbn [written]. apply written_line_other, output_device_not_stderr.
  - eexists. split.
    { apply outcome_is_run with entryPath; [done|]. by eapply AttributeAmbiguous. }
    cbn [exitCode trace clipboard].
    repeat split; try done.
Qed.

(** *** The clipboard write *)

(** The first event of a kind splits a trace in one way only. *)
Lemma first_split (f : Event -> bool) (pre pre' post post' : list Event)
    (x x' : Event) :
  (pre ++ x :: post = pre' ++ x' :: post')%list ->
  List.filter f pre = [] -> List.filter f pre' = [] ->
  f x = true -> f x' = true ->
  pre = pre' /\ x = x' /\ post = post'.
Proof.
  revert pre'. induction pre as [|e pre IH]; intros [|e' pre'] Heq Hpre Hpre' Hx Hx'.
  - by injection Heq as -> ->.
  - injection Heq as -> _. cbn in Hpre'. by rewrite Hx in Hpre'.
  - injection Heq as -> _. cbn in Hpre. by rewrite Hx' in Hpre.
  - injection Heq as -> Heq. cbn in Hpre, Hpre'.
    destruct (f e'); [discriminate|].
    destruct (IH pre' Heq Hpre Hpre' Hx Hx') as (-> & -> & ->). done.
Qed.

Lemma no_such_event (f : Event -> bool) (t pre post : list Event) (x : Event) :
  List.filter f t = [] -> f x = true -> t = (pre ++ x :: post)%list -> False.
Proof.
  intros Ht Hx ->. rewrite List.filter_app in Ht. cbn in Ht. rewrite Hx in Ht.
  by destruct (List.filter f pre).
Qed.

Lemma calls_no_clipboard parser entry calls key value :
  Resolves findAttributes parser entry calls key value ->
  List.filter isClipText calls = [].
Proof. intros H. by eapply calls_plain. Qed.

(** The lookup and the resolution do not show among events of another
    kind. *)
Lemma filter_after_resolution (f : Event -> bool) parser entry calls key value
    (entryPath : string) (rest : list Event) :
  Resolves findAttributes parser entry calls key value ->
  f (FindEntryByPath entryPath) = false ->
  f Totp = false -> (forall name, f (FindAttributes name) = false) ->
  List.filter f (FindEntryByPath entryPath :: calls ++ rest) = List.filter f rest.
Proof.
  intros Hres Hfind Ht Hf. cbn [List.filter]. rewrite Hfind, List.filter_app.
  by rewrite (calls_plain f _ _ _ _ _ Hres).
Qed.

(** C8.  When the write of the value to the clipboard (the first call
    of the clipboard collaborator in the run) reports a failure, the
    command returns that very exit code and the call is the last thing it
    does: no message is written before or after it, there is no countdown
    and no second call that would clear the clipboard. *)
Theorem clipboard_write_failure_propagates
    database parser c r pre text code post :
  run database parser c = Some r ->
  trace r = (pre ++ ClipText text code :: post)%list ->
  List.filter isClipText pre = [] ->
  code <> EXIT_SUCCESS ->
  exitCode r = code /\
  post = [] /\
  List.filter isWrite (trace r) = [] /\
  List.filter isSleep (trace r) = [] /\
  List.filter isClipText (trace r) = [ClipText text code] /\
  clipboard r = (clipText text c).2.
Proof.
  intros Hrun Htrace Hpre Hcode.
  apply run_outcome in Hrun as (entryPath & _ & Hout).
  destruct Hout; cbn [trace exitCode clipboard] in *;
    try (exfalso; eapply (no_such_event isClipText); [| |exact Htrace]; done).
  all: match goal with
       | H : Resolves _ _ _ ?calls _ _ |- _ =>
           pose proof (calls_no_clipboard _ _ _ _ _ H) as Hcalls;
           pose proof (fun f rest => filter_after_resolution f _ _ _ _ _
                                       entryPath rest H) as Hfilter;
           cbn zeta in Htrace;
           change (FindEntryByPath entryPath :: calls ++ ?l)%list
             with ((FindEntryByPath entryPath :: calls) ++ l)%list in Htrace;
           symmetry in Htrace;
           apply (first_split isClipText) in Htrace as (-> & [= -> ->] & ->);
           try done
       end.
  match goal with H : clipText _ _ = _ |- _ => rewrite H end.
  repeat split; try done; by rewrite Hfilter.
Qed.

(** *** The countdown *)

Lemma countdownFrom_length (n : nat) : length (countdownFrom n) = n.
Proof. induction n as [|n IH]; [reflexivity|]. cbn [countdownFrom length]. by rewrite IH. Qed.

Lemma status_line_copied (key : string) :
  String.prefix "Clearing the clipboard in " (msgCopied key) = false.
Proof. reflexivity. Qed.

(** X10.  A successful run with a timeout of [n] seconds shows [n] status
    lines, for [n] down to 1, sleeps [n] times, then calls the clipboard
    collaborator with the empty string and announces the clearing; the
    exit code of that call is not looked at. *)
Lemma countdown_then_clear database parser c r :
  run database parser c = Some r ->
  isEmpty (timeoutArgument (positionalArguments parser)) = false ->
  exitCode r = EXIT_SUCCESS ->
  let out := outputDevice parser in
  let n := Z.to_nat (QtInt.toInt (timeoutArgument (positionalArguments parser))) in
  0 < QtInt.toInt (timeoutArgument (positionalArguments parser)) /\
  exists pre code2 c1,
    trace r = (pre ++ ClipText "" code2
                 :: erase out (lastLineAfter n "") ++ line out msgCleared)%list /\
    List.filter isStatusLine pre
    = map (fun k => Write out (msgClearing k)) (countdownFrom n) /\
    List.filter isStatusLine (trace r) = List.filter isStatusLine pre /\
    List.filter isSleep pre = repeat (Sleep 1000) n /\
    clipText "" c1 = (code2, clipboard r).
Proof.
  intros Hrun He Hexit out n.
  destruct (successful_countdown_run _ _ _ _ Hrun He Hexit)
    as (entryPath & entry & calls & key & value & c1 & code2 & Hr).
  cbn zeta in Hr. destruct Hr as (Hpos & Hfind & Hres & Hclip & Hclear & Htrace).
  fold out n in Htrace. split; [exact Hpos|].
  exists (FindEntryByPath entryPath
            :: calls ++ ClipText value EXIT_SUCCESS :: line out (msgCopied key)
            ++ countdownTrace out n "")%list, code2, c1.
  assert (Hpre : forall f rest,
             f (FindEntryByPath entryPath) = false -> f Totp = false ->
             (forall name, f (FindAttributes name) = false) ->
             List.filter f (FindEntryByPath entryPath :: calls ++ rest)
             = List.filter f rest)
    by (intros; by eapply filter_after_resolution).
  split; [|split; [|split; [|split; [|exact Hclear]]]].
  - rewrite Htrace. cbn [app]. f_equal. rewrite <- !app_assoc. reflexivity.
  - rewrite Hpre by done. cbn [List.filter isStatusLine line app].
    rewrite status_line_copied. cbn iota.
    change (String.prefix "Clearing the clipboard in " LF) with false. cbn iota.
    apply countdown_status_lines.
  - rewrite Htrace, !Hpre by done.
    cbn [List.filter isStatusLine line app].
    rewrite status_line_copied. cbn iota.
    change (String.prefix "Clearing the clipboard in " LF) with false. cbn iota.
    rewrite List.filter_app. cbn [List.filter isStatusLine erase line app].
    rewrite status_line_spaces.
    change (String.prefix "Clearing the clipboard in " LF) with false.
    change (String.prefix "Clearing the clipboard in " CR) with false.
    change (String.prefix "Clearing the clipboard in " msgCleared) with false.
    cbn iota. by rewrite app_nil_r.
  - rewrite Hpre by done. cbn [List.filter isSleep line app].
    apply countdown_sleeps.
Qed.

(** *** The timeout *)

Lemma calls_not_clipboard parser entry calls key value text code :
  Resolves findAttributes parser entry calls key value ->
  In (ClipText text code) calls -> False.
Proof. intros [] Hin; cbn in Hin; by destruct Hin. Qed.

(** Lines 64-67: the run of a rejected timeout. *)
Lemma invalid_timeout_run database parser c r :
  run database parser c = Some r ->
  isEmpty (timeoutArgument (positionalArguments parser)) = false ->
  QtInt.toInt (timeoutArgument (positionalArguments parser)) <= 0 ->
  r = {| exitCode := EXIT_FAILURE;
         trace := line STDERR
                    (msgInvalidTimeout
                       (timeoutArgument (positionalArguments parser)));
         clipboard := c |}.
Proof.
  intros Hrun He Hle.
  apply run_outcome in Hrun as (entryPath & _ & Hout).
  eapply outcome_deterministic; [exact Hout|]. by apply InvalidTimeout.
Qed.

(** C7.  The timeout argument decides the countdown.  Empty or absent:
    there is no countdown and no clearing, and once the value is written
    the command returns successfully right after the confirmation.
    Not empty and not parsing to a positive integer (as with 0, -5 and
    abc): the command fails with the invalid-timeout message and a
    non-zero exit status, before the entry is looked up and before the
    clipboard is touched.  Any other timeout parses to a positive integer,
    and a successful run sleeps one second that many times. *)
Theorem timeout_argument_decides_countdown database parser c r :
  run database parser c = Some r ->
  let timeout := timeoutArgument (positionalArguments parser) in
  (isEmpty timeout = true ->
     List.filter isSleep (trace r) = [] /\
     (length (List.filter isClipText (trace r)) <= 1)%nat /\
     forall text,
       In (ClipText text EXIT_SUCCESS) (trace r) ->
       exitCode r = EXIT_SUCCESS /\
       exists pre key,
         trace r = (pre ++ ClipText text EXIT_SUCCESS
                      :: line (outputDevice parser) (msgCopied key))%list) /\
  (isEmpty timeout = false -> QtInt.toInt timeout <= 0 ->
     exitCode r = EXIT_FAILURE /\ exitCode r <> EXIT_SUCCESS /\
     trace r = line STDERR (msgInvalidTimeout timeout) /\
     clipboard r = c) /\
  (isEmpty timeout = false -> ~ QtInt.toInt timeout <= 0 ->
     0 < QtInt.toInt timeout /\
     trace r <> line STDERR (msgInvalidTimeout timeout) /\
     (exitCode r = EXIT_SUCCESS ->
      List.filter isSleep (trace r)
      = repeat (Sleep 1000) (Z.to_nat (QtInt.toInt timeout)))) /\
  QtInt.toInt "0" <= 0 /\ QtInt.toInt "-5" <= 0 /\ QtInt.toInt "abc" <= 0.
Proof.
  intros Hrun timeout.
  apply run_outcome in Hrun as (entryPath & _ & Hout). fold timeout in Hout.
  split; [|split; [|split; [|by vm_compute]]].
  - (* empty *)
    intros He.
    destruct Hout; cbn [trace exitCode clipboard]; try congruence;
      try match goal with
        | H : Resolves _ _ _ _ _ _ |- _ =>
            pose proof (fun f rest => filter_after_resolution f _ _ _ _ _
                                        entryPath rest H) as Hfilter;
            pose proof (fun text code => calls_not_clipboard _ _ _ _ _ text code H)
              as Hcalls;
            rewrite !Hfilter by done
        end;
      (split; [reflexivity | split; [cbn; lia |]]);
      intros text Hin; cbn in Hin;
      try (exfalso; intuition discriminate).
    + destruct Hin as [Hin|Hin]; [discriminate|].
      apply in_app_or in Hin as [Hin|Hin]; [by destruct (Hcalls _ _ Hin)|].
      cbn in Hin. destruct Hin as [[= _ ?]|[]]. congruence.
    + destruct Hin as [Hin|Hin]; [discriminate|].
      apply in_app_or in Hin as [Hin|Hin]; [by destruct (Hcalls _ _ Hin)|].
      cbn in Hin. destruct Hin as [[= ->]|Hin]; [|exfalso; intuition discriminate].
      split; [reflexivity|]. exists (FindEntryByPath entryPath :: calls), key.
      reflexivity.
  - (* rejected *)
    intros He Hle.
    rewrite (outcome_deterministic _ _ _ _ _ _ _ Hout
               (InvalidTimeout _ _ _ _ _ _ database parser entryPath timeout c
                  He Hle)).
    done.
  - (* a positive integer *)
    intros He Hpos. split; [lia|].
    destruct Hout; cbn [trace exitCode clipboard]; try congruence; try lia;
      (split; [discriminate|]); try discriminate; try congruence.
    intros _. cbn zeta.
    match goal with
    | H : Resolves _ _ _ _ _ _ |- _ =>
        rewrite (filter_after_resolution isSleep _ _ _ _ _ entryPath _ H) by done
    end.
    cbn [List.filter isSleep line]. rewrite !List.filter_app, countdown_sleeps.
    cbn. by rewrite app_nil_r.
Qed.

(** *** The quiet flag *)

Lemma resolves_with_quiet (q q' : bool) parser entry calls key value :
  Resolves findAttributes (withQuiet q parser) entry calls key value ->
  Resolves findAttributes (withQuiet q' parser) entry calls key value.
Proof.
  intros [Hreq Htotp|k Hreq Hkeys].
  - by apply (ResolvesTotp findAttributes (withQuiet q' parser)).
  - by apply (ResolvesAttribute findAttributes (withQuiet q' parser)).
Qed.

Lemma redirect_calls parser entry calls key value :
  Resolves findAttributes parser entry calls key value ->
  map redirectEvent calls = calls.
Proof. by intros []. Qed.

Lemma redirect_countdown (out : Device) (n : nat) (lastLine : string) :
  map redirectEvent (countdownTrace out n lastLine)
  = countdownTrace (redirect out) n lastLine.
Proof.
  revert lastLine. induction n as [|n IH]; intros lastLine; [reflexivity|].
  cbn [countdownTrace map redirectEvent]. by rewrite IH.
Qed.

Lemma redirect_line (d : Device) (msg : string) :
  map redirectEvent (line d msg) = line (redirect d) msg.
Proof. reflexivity. Qed.

Lemma redirect_erase (d : Device) (lastLine : string) :
  map redirectEvent (erase d lastLine) = erase (redirect d) lastLine.
Proof. reflexivity. Qed.

Lemma written_stderr_redirect (t : list Event) :
  written STDERR (map redirectEvent t) = written STDERR t.
Proof.
  induction t as [|e t IH]; [reflexivity|].
  destruct e as [[]| | | | | |]; cbn [map redirectEvent redirect written];
    rewrite ?decide_True, ?decide_False by done; by rewrite ?IH.
Qed.

Lemma written_stdout_redirect (t : list Event) :
  written STDOUT (map redirectEvent t) = "".
Proof.
  induction t as [|e t IH]; [reflexivity|].
  destruct e as [[]| | | | | |]; cbn [map redirectEvent redirect written];
    rewrite ?decide_False by done; exact IH.
Qed.

(** Setting the quiet flag changes one thing in a run: what went to
    standard output goes to the null device. *)
Lemma outcome_with_quiet database parser entryPath timeout c r :
  outcome database (withQuiet false parser) entryPath timeout c r ->
  outcome database (withQuiet true parser) entryPath timeout c
    {| exitCode := exitCode r;
       trace := map redirectEvent (trace r);
       clipboard := clipboard r |}.
Proof.
  intros Hout.
  destruct Hout; cbn [exitCode trace clipboard];
    try match goal with
      | H : Resolves _ _ _ _ _ _ |- _ =>
          pose proof (redirect_calls _ _ _ _ _ H) as Hcalls;
          apply (resolves_with_quiet false true) in H
      end;
    cbn zeta;
    repeat (rewrite ?map_cons, ?map_app, ?redirect_line, ?redirect_erase,
              ?redirect_countdown, ?Hcalls; cbn [redirectEvent]);
    change (redirect STDERR) with STDERR;
    change (redirect (outputDevice (withQuiet false parser)))
      with (outputDevice (withQuiet true parser));
    change (optionValue (withQuiet false parser))
      with (optionValue (withQuiet true parser)) in *.
  - by apply InvalidTimeout.
  - by apply EntryNotFound.
  - eapply ConflictingOptions; match goal with H : _ |- _ => exact H end.
  - eapply NoTotpConfigured; match goal with H : _ |- _ => exact H end.
  - eapply AttributeAmbiguous; match goal with H : _ |- _ => exact H end.
  - eapply AttributeNotFound; match goal with H : _ |- _ => exact H end.
  - eapply ClipboardWriteFailed; match goal with H : _ |- _ => exact H end.
  - eapply Copied; match goal with H : _ |- _ => exact H end.
  - eapply Cleared; match goal with H : _ |- _ => exact H end.
Qed.

(** C9.  Two runs that differ in the quiet flag only write the same
    text to the error stream (and end with the same exit code and the
    same clipboard): the quiet run is the other run with standard output
    redirected to the null device, so it prints nothing on standard
    output and every diagnostic of the error stream stays. *)
Theorem quiet_leaves_error_stream_unchanged database parser c r r' :
  run database (withQuiet false parser) c = Some r ->
  run database (withQuiet true parser) c = Some r' ->
  written STDERR (trace r') = written STDERR (trace r) /\
  exitCode r' = exitCode r /\
  clipboard r' = clipboard r /\
  trace r' = map redirectEvent (trace r) /\
  written STDOUT (trace r') = "".
Proof.
  intros Hrun Hrun'.
  apply run_outcome in Hrun as (entryPath & Hargs & Hout).
  apply outcome_with_quiet in Hout.
  apply (outcome_is_run _ (withQuiet true parser) entryPath) in Hout; [|exact Hargs].
  rewrite Hout in Hrun'. injection Hrun' as <-. cbn [trace exitCode clipboard].
  by rewrite written_stderr_redirect, written_stdout_redirect.
Qed.

(** C10.  A timeout that is not empty and is not the decimal
    representation of an integer in the range of [int] (3x, 1.5 and
    2147483648 are none) makes the command fail with the invalid-timeout
    message: the conversion gives 0, and 0 is not greater than zero. *)
Theorem unparsable_timeout_is_invalid database parser c r :
  run database parser c = Some r ->
  let timeout := timeoutArgument (positionalArguments parser) in
  isEmpty timeout = false ->
  ~ QtInt.IntRepresentation timeout ->
  (QtInt.toInt timeout = 0 /\
   exitCode r = EXIT_FAILURE /\
   trace r = line STDERR (msgInvalidTimeout timeout) /\
   clipboard r = c) /\
  ~ QtInt.IntRepresentation "3x" /\
  ~ QtInt.IntRepresentation "1.5" /\
  ~ QtInt.IntRepresentation "2147483648".
Proof.
  intros Hrun timeout He Hno.
  pose proof (proj2 (QtIntFacts.toInt_spec timeout) Hno) as Hzero.
  split; [|split; [|split]].
  - split; [exact Hzero|].
    rewrite (invalid_timeout_run _ _ _ _ Hrun He) by (fold timeout; lia).
    done.
  - by apply QtIntFacts.not_a_representation.
  - by apply QtIntFacts.not_a_representation.
  - apply (QtIntFacts.out_of_int_range _ 2147483648); [reflexivity|].
    unfold QtInt.INT_MIN, QtInt.INT_MAX. lia.
Qed.

(** ** More about the command *)

(** *** The positional arguments *)

(** X1.  Lines 56-61.  The timeout is read only when there are exactly three
    positional arguments: with any other number the run is the run on the
    first two arguments alone, so that a third argument followed by a
    fourth is neither checked nor counted down. *)
Theorem other_argument_counts_ignore_timeout database parser c :
  length (positionalArguments parser) <> 3%nat ->
  run database parser c
  = run database
      (withArguments (take 2 (positionalArguments parser)) parser) c.
Proof.
  intros Hlen. unfold executeWithDatabase.
  cbn [positionalArguments withArguments].
  assert (Hlookup : take 2 (positionalArguments parser) !! 1%nat
                    = positionalArguments parser !! 1%nat)
    by (apply lookup_take_lt; lia).
  rewrite Hlookup.
  destruct (positionalArguments parser !! 1%nat) as [entryPath|]; [|reflexivity].
  assert (Ht : timeoutArgument (positionalArguments parser) = "").
  { unfold timeoutArgument.
    destruct (Nat.eqb_spec (length (positionalArguments parser)) 3); [lia | done]. }
  assert (Ht' : timeoutArgument (take 2 (positionalArguments parser)) = "").
  { unfold timeoutArgument.
    destruct (Nat.eqb_spec (length (take 2 (positionalArguments parser))) 3)
      as [Heq|]; [|done].
    rewrite length_take in Heq. lia. }
  cbn zeta. rewrite Ht, Ht'. reflexivity.
Qed.

(** *** The entry *)

(** X2.  Lines 74-78.  With an accepted timeout and a path the database does
    not know, the run is the lookup followed by the entry-not-found
    message on the error stream, whatever the options are: exit code
    [EXIT_FAILURE], nothing resolved, the clipboard as it was. *)
Theorem missing_entry_run database parser entryPath c :
  positionalArguments parser !! 1%nat = Some entryPath ->
  acceptedTimeout (timeoutArgument (positionalArguments parser)) ->
  findEntryByPath database entryPath = None ->
  run database parser c
  = Some {| exitCode := EXIT_FAILURE;
            trace := FindEntryByPath entryPath
                       :: line STDERR (msgEntryNotFound entryPath);
            clipboard := c |}.
Proof.
  intros Hargs Hok Hfind. apply outcome_is_run with entryPath; [done|].
  by apply EntryNotFound.
Qed.

(** *** The attribute option *)

(** X3.  Lines 30-35 and 85.  Without [--totp], leaving [--attribute] out is
    the same as giving it its default, password: the two runs are equal. *)
Theorem attribute_defaults_to_password database parser c :
  isSet parser TotpOption = false ->
  isSet parser AttributeOption = false ->
  run database parser c
  = run database (withAttribute (Some AttributeOption_default) parser) c.
Proof.
  destruct parser as [args quiet attr totpFlag]. cbn [isSet totpSet attributeArg].
  intros -> Hattr. destruct attr as [a|]; [discriminate|]. reflexivity.
Qed.

(** X4.  Lines 88-95.  When the TOTP is requested (timeout accepted, entry
    found, not both options set): an entry without TOTP ends the run with
    the no-TOTP message on the error stream, before any call for the code
    and with the clipboard as it was; an entry with a TOTP has its current
    code handed to the clipboard collaborator, and the attributes are not
    searched. *)
Theorem totp_request_copies_current_code database parser entryPath entry c :
  positionalArguments parser !! 1%nat = Some entryPath ->
  acceptedTimeout (timeoutArgument (positionalArguments parser)) ->
  findEntryByPath database entryPath = Some entry ->
  isSet parser AttributeOption && isSet parser TotpOption = false ->
  totpRequested parser = true ->
  (hasTotp entry = false ->
     run database parser c
     = Some {| exitCode := EXIT_FAILURE;
               trace := FindEntryByPath entryPath
                          :: line STDERR (msgNoTotp entryPath);
               clipboard := c |}) /\
  (hasTotp entry = true ->
     exists r rest,
       run database parser c = Some r /\
       trace r = FindEntryByPath entryPath :: Totp
                   :: ClipText (totp entry) (clipText (totp entry) c).1 :: rest /\
       List.filter isResolutionCall (trace r) = [Totp]).
Proof.
  intros Hargs Hok Hfind Hboth Hreq. split; intros Htotp.
  - apply outcome_is_run with entryPath; [done|]. by eapply NoTotpConfigured.
  - pose proof (ResolvesTotp findAttributes parser entry Hreq Htotp) as Hres.
    destruct (clipText (totp entry) c) as [code c1] eqn:Hclip. cbn [fst].
    destruct (decide (code = EXIT_SUCCESS)) as [->|Hcode];
      [destruct (isEmpty (timeoutArgument (positionalArguments parser))) eqn:He|].
    + eexists _, _. split; [|split].
      * apply outcome_is_run with entryPath; [done|]. by eapply Copied.
      * reflexivity.
      * reflexivity.
    + destruct Hok as [Hok|Hpos]; [congruence|].
      destruct (clipText "" c1) as [code2 c2] eqn:Hclear.
      eexists _, _. split; [|split].
      * apply outcome_is_run with entryPath; [done|]. by eapply Cleared.
      * reflexivity.
      * cbn [trace]. cbn zeta.
        cbn [app List.filter isResolutionCall line].
        rewrite List.filter_app, countdown_plain by done. reflexivity.
    + eexists _, _. split; [|split].
      * apply outcome_is_run with entryPath; [done|].
        by eapply ClipboardWriteFailed.
      * reflexivity.
      * reflexivity.
Qed.

(** *** What a run calls, and what it leaves *)

(** Filtering the part of a trace that follows the resolution. *)
Ltac after_resolution f :=
  match goal with
  | H : Resolves _ _ _ _ _ _ |- _ =>
      rewrite (fun path rest =>
                 filter_after_resolution f _ _ _ _ _ path rest H) by done;
      cbn zeta; cbn [app List.filter f line erase];
      rewrite ?List.filter_app, ?countdown_plain by done;
      cbn [app List.filter f line erase]
  end.

(** X5.  Lines 85-108.  A run resolves at most once, and in one way: it asks
    the entry for its TOTP code only when the TOTP is requested, it
    searches the attributes only when it is not, and then for the value of
    the attribute option; it never does both.  A run that resolves
    nothing has failed and has left the clipboard as it was. *)
Theorem resolution_is_exclusive database parser c r :
  run database parser c = Some r ->
  (List.filter isResolutionCall (trace r) = [] /\
   exitCode r = EXIT_FAILURE /\ clipboard r = c) \/
  (List.filter isResolutionCall (trace r) = [Totp] /\
   totpRequested parser = true) \/
  (List.filter isResolutionCall (trace r)
   = [FindAttributes (optionValue parser)] /\
   totpRequested parser = false).
Proof.
  intros Hrun. apply run_outcome in Hrun as (entryPath & _ & Hout).
  destruct Hout; cbn [trace exitCode clipboard];
    try (left; by repeat split);
    try (right; right; by split).
  all: match goal with
       | H : Resolves _ _ _ _ _ _ |- _ => destruct H as [Hreq ?|key Hreq ?]
       end;
    [right; left | right; right]; (split; [|exact Hreq]);
    cbn zeta; cbn [app List.filter isResolutionCall line erase];
    rewrite ?List.filter_app, ?countdown_plain by done; reflexivity.
Qed.

(** X6.  Lines 115-134.  The clipboard collaborator is called at most twice.
    Without a call the run has failed and the clipboard is as it was.
    The first call carries the resolved value; when it fails, or when no
    timeout was given, it is the only one, its exit code is the exit code
    of the run and the clipboard is what it left.  A second call comes
    only after a first one that succeeded, carries the empty string, and
    the clipboard of the run is what it left. *)
Theorem clipboard_calls_and_state database parser c r :
  run database parser c = Some r ->
  match List.filter isClipText (trace r) with
  | [] => clipboard r = c /\ exitCode r = EXIT_FAILURE
  | [ClipText text code] =>
      clipText text c = (code, clipboard r) /\ exitCode r = code /\
      (code = EXIT_SUCCESS ->
       isEmpty (timeoutArgument (positionalArguments parser)) = true)
  | [ClipText text code; ClipText text' code'] =>
      code = EXIT_SUCCESS /\ text' = "" /\ exitCode r = EXIT_SUCCESS /\
      exists c1,
        clipText text c = (EXIT_SUCCESS, c1) /\
        clipText "" c1 = (code', clipboard r)
  | _ => False
  end.
Proof.
  intros Hrun. apply run_outcome in Hrun as (entryPath & _ & Hout).
  destruct Hout; cbn [trace exitCode clipboard];
    try (cbn; by split);
    after_resolution isClipText.
  - by repeat split.
  - by repeat split.
  - repeat split; try done. by eexists.
Qed.

(** X7.  Lines 115-138.  The run exits with [EXIT_SUCCESS] exactly when its
    first call of the clipboard collaborator, the write of the value,
    reported success; what the clearing call reports plays no part. *)
Theorem success_is_a_successful_write database parser c r :
  run database parser c = Some r ->
  exitCode r = EXIT_SUCCESS <->
  exists text,
    head (List.filter isClipText (trace r)) = Some (ClipText text EXIT_SUCCESS).
Proof.
  intros Hrun. apply run_outcome in Hrun as (entryPath & _ & Hout).
  destruct Hout; cbn [trace exitCode clipboard];
    try (split; [discriminate | intros [text Hhead]; cbn in Hhead; discriminate]);
    after_resolution isClipText; cbn [head].
  - split; [done | intros [text [= _ ?]]; done].
  - split; [by eexists | done].
  - split; [by eexists | done].
Qed.

Lemma written_stderr_after_resolution parser entry calls key value
    (entryPath : string) (rest : list Event) :
  Resolves findAttributes parser entry calls key value ->
  written STDERR (FindEntryByPath entryPath :: calls ++ rest)
  = written STDERR rest.
Proof.
  intros Hres. cbn [written].
  by rewrite written_app, (written_calls _ _ _ _ _ _ Hres).
Qed.

(** X8.  Diagnostics and the clipboard exclude each other: a run that wrote
    anything to the error stream exits with [EXIT_FAILURE], never called
    the clipboard collaborator and left the clipboard as it was; a run
    that exits with [EXIT_SUCCESS] wrote nothing to the error stream. *)
Theorem diagnostics_leave_clipboard_alone database parser c r :
  run database parser c = Some r ->
  (written STDERR (trace r) <> "" ->
   exitCode r = EXIT_FAILURE /\
   List.filter isClipText (trace r) = [] /\
   clipboard r = c) /\
  (exitCode r = EXIT_SUCCESS -> written STDERR (trace r) = "").
Proof.
  intros Hrun. apply run_outcome in Hrun as (entryPath & _ & Hout).
  pose proof (output_device_not_stderr parser) as Hdev.
  destruct Hout; cbn [trace exitCode clipboard];
    try (split; [intros _; by repeat split | discriminate]).
  - match goal with
    | H : Resolves _ _ _ _ _ _ |- _ =>
        rewrite (written_stderr_after_resolution _ _ _ _ _ _ _ H)
    end.
    split; [intros Hne; by destruct Hne | done].
  - match goal with
    | H : Resolves _ _ _ _ _ _ |- _ =>
        rewrite (written_stderr_after_resolution _ _ _ _ _ _ _ H)
    end.
    cbn [written]. rewrite written_line_other by done.
    split; [intros Hne; by destruct Hne | done].
  - match goal with
    | H : Resolves _ _ _ _ _ _ |- _ =>
        rewrite (written_stderr_after_resolution _ _ _ _ _ _ _ H)
    end.
    cbn zeta. cbn [written].
    rewrite written_app, written_line_other by done.
    rewrite written_app, written_countdown_other by done.
    cbn [written].
    rewrite written_app, written_erase_other, written_line_other by done.
    split; [intros Hne; by destruct Hne | done].
Qed.

Lemma accepted_not_rejected (timeout : string) :
  acceptedTimeout timeout -> rejectedTimeout timeout = false.
Proof.
  unfold rejectedTimeout. intros [->|Hpos]; [reflexivity|].
  replace (QtInt.toInt timeout <=? 0) with false by lia. apply andb_false_r.
Qed.

(** X9.  Lines 64-78.  The database is asked for the entry at most once, for
    the second positional argument, and before anything else is done;
    it is not asked at all when the timeout is rejected. *)
Theorem entry_is_looked_up_once database parser entryPath c r :
  run database parser c = Some r ->
  positionalArguments parser !! 1%nat = Some entryPath ->
  let timeout := timeoutArgument (positionalArguments parser) in
  List.filter isFindEntryByPath (trace r)
  = (if rejectedTimeout timeout then [] else [FindEntryByPath entryPath]) /\
  (rejectedTimeout timeout = false ->
   head (trace r) = Some (FindEntryByPath entryPath)).
Proof.
  intros Hrun Hargs timeout.
  apply run_outcome in Hrun as (path & Hpath & Hout).
  assert (path = entryPath) by congruence. subst path. fold timeout in Hout.
  destruct Hout; cbn [trace exitCode clipboard].
  1: { unfold rejectedTimeout.
       match goal with H : isEmpty _ = false |- _ => rewrite H end.
       replace (QtInt.toInt timeout <=? 0) with true by lia.
       split; [reflexivity | discriminate]. }
  all: rewrite accepted_not_rejected
         by (assumption || (by left) || (by right));
       (split; [|done]); cbn zeta;
       cbn [List.filter isFindEntryByPath line]; f_equal;
       try match goal with
         | H : Resolves _ _ _ _ _ _ |- _ =>
             rewrite List.filter_app,
               (calls_plain isFindEntryByPath _ _ _ _ _ H) by done
         end;
       cbn [app List.filter isFindEntryByPath line erase];
       rewrite ?List.filter_app, ?countdown_plain by done; reflexivity.
Qed.

(** *** The secret *)

Lemma resolves_other_entry parser entry entry' calls key value :
  Resolves findAttributes parser entry calls key value ->
  hasTotp entry = hasTotp entry' ->
  findAttributes (attributes entry) (optionValue parser)
  = findAttributes (attributes entry') (optionValue parser) ->
  exists value', Resolves findAttributes parser entry' calls key value'.
Proof.
  intros [Hreq Htotp|k Hreq Hkeys] Hsame Hattrs.
  - exists (totp entry'). apply ResolvesTotp; congruence.
  - exists (attributeValue (attributes entry') k).
    apply ResolvesAttribute; congruence.
Qed.

Lemma outcome_other_values database database' parser entryPath timeout
    entry entry' c r :
  outcome database parser entryPath timeout c r ->
  findEntryByPath database entryPath = Some entry ->
  findEntryByPath database' entryPath = Some entry' ->
  hasTotp entry = hasTotp entry' ->
  findAttributes (attributes entry) (optionValue parser)
  = findAttributes (attributes entry') (optionValue parser) ->
  (forall text text', (clipText text c).1 = (clipText text' c).1) ->
  exists r',
    outcome database' parser entryPath timeout c r' /\
    exitCode r' = exitCode r /\
    List.filter notClipText (trace r') = List.filter notClipText (trace r).
Proof.
  intros Hout Hfind Hfind' Htotp Hattrs Hexit.
  destruct Hout;
    try match goal with
      | H : findEntryByPath database entryPath = Some ?e |- _ =>
          assert (e = entry) by congruence; subst e
      end;
    try congruence.
  - eexists. split; [by apply InvalidTimeout | done].
  - eexists. split; [by eapply ConflictingOptions | done].
  - eexists. split; [eapply NoTotpConfigured; eauto; congruence | done].
  - eexists. split; [eapply AttributeAmbiguous; eauto; congruence|].
    by rewrite Hattrs.
  - eexists. split; [eapply AttributeNotFound; eauto; congruence | done].
  - match goal with H : Resolves _ _ _ _ _ _ |- _ =>
      destruct (resolves_other_entry _ _ entry' _ _ _ H Htotp Hattrs)
        as [value' Hres']
    end.
    destruct (clipText value' c) as [code' c1'] eqn:Hclip'.
    assert (code' = code).
    { pose proof (Hexit value' value) as He.
      match goal with H : clipText value c = _ |- _ => rewrite H in He end.
      by rewrite Hclip' in He. }
    subst code'.
    eexists. split; [by eapply ClipboardWriteFailed|].
    cbn [exitCode trace]. split; [done|].
    cbn [List.filter notClipText isClipText negb].
    rewrite !List.filter_app. reflexivity.
  - match goal with H : Resolves _ _ _ _ _ _ |- _ =>
      destruct (resolves_other_entry _ _ entry' _ _ _ H Htotp Hattrs)
        as [value' Hres']
    end.
    destruct (clipText value' c) as [code' c1'] eqn:Hclip'.
    assert (code' = EXIT_SUCCESS).
    { pose proof (Hexit value' value) as He.
      match goal with H : clipText value c = _ |- _ => rewrite H in He end.
      by rewrite Hclip' in He. }
    subst code'.
    eexists. split; [by eapply Copied|].
    cbn [exitCode trace]. split; [done|].
    cbn [List.filter notClipText isClipText negb].
    rewrite !List.filter_app. reflexivity.
  - match goal with H : Resolves _ _ _ _ _ _ |- _ =>
      destruct (resolves_other_entry _ _ entry' _ _ _ H Htotp Hattrs)
        as [value' Hres']
    end.
    destruct (clipText value' c) as [code' c1'] eqn:Hclip'.
    assert (code' = EXIT_SUCCESS).
    { pose proof (Hexit value' value) as He.
      match goal with H : clipText value c = _ |- _ => rewrite H in He end.
      by rewrite Hclip' in He. }
    subst code'.
    destruct (clipText "" c1') as [code3 c3] eqn:Hclear'.
    eexists. split; [by eapply Cleared|].
    cbn [exitCode trace]. split; [done|]. cbn zeta.
    cbn [List.filter notClipText isClipText negb].
    rewrite !List.filter_app.
    cbn [List.filter notClipText isClipText negb].
    rewrite !List.filter_app.
    cbn [List.filter notClipText isClipText negb].
    rewrite !List.filter_app. reflexivity.
Qed.

(** X11.  The value that is copied is never shown: take two entries that
    differ in what they store (attribute values, TOTP code) but not in
    what the resolution looks at, and a clipboard helper whose exit code
    does not depend on the text; the two runs end with the same exit code
    and, apart from their calls of the clipboard collaborator, do exactly
    the same things, every write to every stream included. *)
Theorem stored_values_are_not_shown
    database database' parser entryPath entry entry' c r r' :
  positionalArguments parser !! 1%nat = Some entryPath ->
  findEntryByPath database entryPath = Some entry ->
  findEntryByPath database' entryPath = Some entry' ->
  hasTotp entry = hasTotp entry' ->
  findAttributes (attributes entry) (optionValue parser)
  = findAttributes (attributes entry') (optionValue parser) ->
  (forall text text', (clipText text c).1 = (clipText text' c).1) ->
  run database parser c = Some r ->
  run database' parser c = Some r' ->
  exitCode r' = exitCode r /\
  List.filter notClipText (trace r') = List.filter notClipText (trace r).
Proof.
  intros Hargs Hfind Hfind' Htotp Hattrs Hexit Hrun Hrun'.
  apply run_outcome in Hrun as (path & Hpath & Hout).
  assert (path = entryPath) by congruence. subst path.
  destruct (outcome_other_values _ _ _ _ _ _ _ _ _ Hout Hfind Hfind' Htotp
              Hattrs Hexit) as (r2 & Hout2 & Hcode & Htrace).
  apply (outcome_is_run _ _ _ _ _ Hargs) in Hout2.
  assert (r' = r2) by congruence. by subst r'.
Qed.

(** X12.  Lines 115-134.  In a successful run with a timeout of [n] seconds
    all the waiting lies between the write of the value and the clearing
    call, and it is [n] sleeps of one second: the value stays on the
    clipboard for the time asked, and the command does not wait before the
    write or after the clearing. *)
Theorem value_stays_for_the_timeout database parser c r :
  run database parser c = Some r ->
  isEmpty (timeoutArgument (positionalArguments parser)) = false ->
  exitCode r = EXIT_SUCCESS ->
  exists before value during code2 after,
    trace r = (before ++ ClipText value EXIT_SUCCESS
                 :: during ++ ClipText "" code2 :: after)%list /\
    List.filter isClipText before = [] /\
    List.filter isSleep before = [] /\
    List.filter isSleep during
    = repeat (Sleep 1000)
        (Z.to_nat (QtInt.toInt (timeoutArgument (positionalArguments parser)))) /\
    List.filter isClipText during = [] /\
    List.filter isSleep after = [] /\
    List.filter isClipText after = [].
Proof.
  intros Hrun He Hexit.
  destruct (successful_countdown_run _ _ _ _ Hrun He Hexit)
    as (entryPath & entry & calls & key & value & c1 & code2 & Hr).
  cbn zeta in Hr. destruct Hr as (Hpos & Hfind & Hres & Hclip & Hclear & Htrace).
  exists (FindEntryByPath entryPath :: calls), value,
    (line (outputDevice parser) (msgCopied key)
       ++ countdownTrace (outputDevice parser)
            (Z.to_nat (QtInt.toInt (timeoutArgument (positionalArguments parser))))
            "")%list,
    code2,
    (erase (outputDevice parser)
       (lastLineAfter
          (Z.to_nat (QtInt.toInt (timeoutArgument (positionalArguments parser))))
          "")
       ++ line (outputDevice parser) msgCleared)%list.
  split; [|repeat split].
  - rewrite Htrace. cbn [app]. rewrite <- ?app_assoc. reflexivity.
  - cbn. by eapply calls_plain.
  - cbn. by eapply calls_plain.
  - rewrite List.filter_app, countdown_sleeps. reflexivity.
  - rewrite List.filter_app, countdown_no_clipboard. reflexivity.
Qed.

End ClipProperties.

(** C1 as it is written fails: with both options set and a path that is
    not in the database, the entry is looked up and the command reports
    that the entry is missing. *)
Lemma conflicting_options_counterexample :
  let parser :=
    Sample.cli ["db.kdbx"; "Root/Missing"] false (Some "password") true in
  isSet parser AttributeOption = true /\
  isSet parser TotpOption = true /\
  exists r,
    Sample.run Sample.db parser Sample.fresh = Some r /\
    head (trace r) = Some (FindEntryByPath "Root/Missing") /\
    written STDERR (trace r) = msgEntryNotFound "Root/Missing" +:+ LF /\
    written STDERR (trace r) <> msgConflictingOptions +:+ LF.
Proof.
  cbn zeta. split; [reflexivity|]. split; [reflexivity|].
  eexists. split; [vm_compute; reflexivity|].
  split; [reflexivity|]. split; [reflexivity|]. discriminate.
Qed.

Lemma conflicting_options_after_lookup_witness :
  Sample.run Sample.db
    (Sample.cli ["db.kdbx"; "Root/Email"; "10"] false (Some "password") true)
    Sample.fresh
  = Some {| exitCode := EXIT_FAILURE;
            trace := FindEntryByPath "Root/Email"
                       :: line STDERR msgConflictingOptions;
            clipboard := Sample.fresh |}.
Proof.
  apply (conflicting_options_after_lookup Sample.findEntryByPath
           Sample.findAttributes Sample.createSeparatedList Sample.clipText
           Sample.db
           (Sample.cli ["db.kdbx"; "Root/Email"; "10"] false (Some "password") true)
           "Root/Email" Sample.fresh).
  - reflexivity.
  - right. vm_compute. reflexivity.
  - reflexivity.
  - reflexivity.
Defined.

(** C2 as it is written fails: under the quiet flag a run that counts
    down and clears prints nothing, the clearing message included. *)
Lemma cleared_message_counterexample :
  let parser := Sample.cli ["db.kdbx"; "Root/Email"; "1"] true None false in
  isSet parser QuietOption = true /\
  exists r,
    Sample.run Sample.db parser Sample.fresh = Some r /\
    exitCode r = EXIT_SUCCESS /\
    In (Sleep 1000) (trace r) /\
    In (Write DEVNULL msgCleared) (trace r) /\
    written STDOUT (trace r) = "" /\
    written STDERR (trace r) = "".
Proof.
  cbn zeta. split; [reflexivity|].
  eexists. split; [vm_compute; reflexivity|].
  repeat split; try reflexivity; cbn; tauto.
Qed.

Lemma cleared_message_shares_output_stream_witness :
  exists before,
    written STDOUT
      [FindEntryByPath "Root/Plain"; FindAttributes "password";
       ClipText "hunter2" 0; Write STDOUT (msgCopied "password");
       Write STDOUT LF; Flush STDOUT;
       Write STDOUT CR; Write STDOUT ""; Write STDOUT CR;
       Write STDOUT (msgClearing 1); Flush STDOUT; Sleep 1000;
       ClipText "" 0;
       Write STDOUT CR; Write STDOUT (spaces 40); Write STDOUT CR;
       Write STDOUT msgCleared; Write STDOUT LF; Flush STDOUT]
    = before +:+ msgCleared +:+ LF.
Proof.
  pose proof (cleared_message_shares_output_stream Sample.findEntryByPath
           Sample.findAttributes Sample.createSeparatedList Sample.clipText
           Sample.db
           (Sample.cli ["db.kdbx"; "Root/Plain"; "1"] false None false)
           Sample.fresh _ eq_refl eq_refl eq_refl) as (_ & _ & H).
  exact (H eq_refl).
Defined.

(** C3: the code departs from the claim.  With [--totp] on an entry
    that has a TOTP the current code is copied, but the confirmation names
    the default of the attribute option, password; it names totp only when
    the request is made with [--attribute totp], which the help text of
    [--totp] calls equivalent. *)
Theorem totp_flag_confirmation_names_password :
  let byFlag := Sample.cli ["db.kdbx"; "Root/Email"] false None true in
  let byName := Sample.cli ["db.kdbx"; "Root/Email"] false (Some "totp") false in
  hasTotp Sample.email = true /\
  totpRequested byFlag = true /\ totpRequested byName = true /\
  Sample.run Sample.db byFlag Sample.fresh
  = Some {| exitCode := EXIT_SUCCESS;
            trace := FindEntryByPath "Root/Email" :: Totp
                       :: ClipText "123456" EXIT_SUCCESS
                       :: line STDOUT (msgCopied "password");
            clipboard := {| Sample.content := "123456"; Sample.helper := [] |} |} /\
  Sample.run Sample.db byName Sample.fresh
  = Some {| exitCode := EXIT_SUCCESS;
            trace := FindEntryByPath "Root/Email" :: Totp
                       :: ClipText "123456" EXIT_SUCCESS
                       :: line STDOUT (msgCopied "totp");
            clipboard := {| Sample.content := "123456"; Sample.helper := [] |} |}.
Proof. repeat split; vm_compute; reflexivity. Qed.

(** C4: the code departs from the claim.  The countdown shows its lines
    for 2 and 1, then the call that should empty the clipboard fails; its
    exit code is dropped (the first call's is checked), so the run still
    announces the clearing and exits with success while the clipboard
    keeps the password. *)
Theorem failed_clearing_is_reported_as_cleared :
  let parser := Sample.cli ["db.kdbx"; "Root/Plain"; "2"] false None false in
  let clip := {| Sample.content := "old"; Sample.helper := [0; 1] |} in
  exists r,
    Sample.run Sample.db parser clip = Some r /\
    exitCode r = EXIT_SUCCESS /\
    List.filter isStatusLine (trace r)
    = [Write STDOUT (msgClearing 2); Write STDOUT (msgClearing 1)] /\
    List.filter isClipText (trace r)
    = [ClipText "hunter2" EXIT_SUCCESS; ClipText "" 1] /\
    In (Write STDOUT msgCleared) (trace r) /\
    Sample.content (clipboard r) = "hunter2" /\
    Sample.content (clipboard r) <> "".
Proof.
  cbn zeta. eexists. split; [vm_compute; reflexivity|].
  repeat split; try reflexivity; [cbn; tauto | discriminate].
Qed.

Lemma unique_match_copies_stored_value_witness :
  exists r rest,
    Sample.run Sample.db
      (Sample.cli ["db.kdbx"; "Root/Email"] false (Some "UserN") false)
      Sample.fresh = Some r /\
    exitCode r = EXIT_SUCCESS /\
    trace r = FindEntryByPath "Root/Email" :: FindAttributes "UserN"
                :: ClipText "alice" EXIT_SUCCESS
                :: (line STDOUT (msgCopied "UserName") ++ rest)%list.
Proof.
  apply (unique_match_copies_stored_value Sample.findEntryByPath
           Sample.findAttributes Sample.createSeparatedList Sample.clipText
           Sample.db
           (Sample.cli ["db.kdbx"; "Root/Email"] false (Some "UserN") false)
           "Root/Email" Sample.email "UserName" "alice" Sample.fresh).
  - reflexivity.
  - left. reflexivity.
  - reflexivity.
  - reflexivity.
  - vm_compute. reflexivity.
  - vm_compute. reflexivity.
  - reflexivity.
Defined.

Lemma unmatched_and_ambiguous_queries_witness :
  (exists r,
     Sample.run Sample.db
       (Sample.cli ["db.kdbx"; "Root/Email"] false (Some "xyz") false)
       Sample.fresh = Some r /\
     written STDOUT (trace r) = msgAttributeNotFound "xyz" +:+ LF /\
     written STDERR (trace r) = "" /\
     clipboard r = Sample.fresh) /\
  (exists r,
     Sample.run Sample.db
       (Sample.cli ["db.kdbx"; "Root/Email"] false (Some "User") false)
       Sample.fresh = Some r /\
     written STDERR (trace r)
     = msgAmbiguous "User" "UserId, UserName" +:+ LF /\
     clipboard r = Sample.fresh).
Proof.
  split.
  - destruct (unmatched_and_ambiguous_queries Sample.findEntryByPath
                Sample.findAttributes Sample.createSeparatedList Sample.clipText
                Sample.db
                (Sample.cli ["db.kdbx"; "Root/Email"] false (Some "xyz") false)
                "Root/Email" Sample.email Sample.fresh
                eq_refl (or_introl eq_refl) eq_refl eq_refl) as [Hnone _].
    destruct Hnone as (r & Hrun & _ & _ & _ & Hout & Herr & _ & Hclip);
      [vm_compute; reflexivity|].
    exists r. auto.
  - destruct (unmatched_and_ambiguous_queries Sample.findEntryByPath
                Sample.findAttributes Sample.createSeparatedList Sample.clipText
                Sample.db
                (Sample.cli ["db.kdbx"; "Root/Email"] false (Some "User") false)
                "Root/Email" Sample.email Sample.fresh
                eq_refl (or_introl eq_refl) eq_refl eq_refl) as [_ Hmany].
    destruct Hmany as (r & Hrun & _ & _ & _ & Herr & _ & Hclip);
      [vm_compute; lia|].
    exists r. auto.
Defined.

Lemma timeout_argument_decides_countdown_witness :
  exists r,
    Sample.run Sample.db
      (Sample.cli ["db.kdbx"; "Root/Email"; "abc"] false None false)
      Sample.fresh = Some r /\
    exitCode r <> EXIT_SUCCESS /\
    trace r = line STDERR (msgInvalidTimeout "abc") /\
    clipboard r = Sample.fresh.
Proof.
  eexists. split; [vm_compute; reflexivity|].
  destruct (timeout_argument_decides_countdown Sample.findEntryByPath
              Sample.findAttributes Sample.createSeparatedList Sample.clipText
              Sample.db
              (Sample.cli ["db.kdbx"; "Root/Email"; "abc"] false None false)
              Sample.fresh _ eq_refl) as (_ & Hinvalid & _).
  destruct Hinvalid as (_ & Hexit & Htrace & Hclip);
    [reflexivity | vm_compute; discriminate |].
  split; [exact Hexit | split; [exact Htrace | exact Hclip]].
Defined.

Lemma clipboard_write_failure_propagates_witness :
  let clip := {| Sample.content := "old"; Sample.helper := [3] |} in
  let r := {| exitCode := 3;
              trace := [FindEntryByPath "Root/Plain"; FindAttributes "password";
                        ClipText "hunter2" 3];
              clipboard := {| Sample.content := "old"; Sample.helper := [] |} |} in
  Sample.run Sample.db (Sample.cli ["db.kdbx"; "Root/Plain"; "5"] false None false)
    clip = Some r /\
  exitCode r = 3 /\
  List.filter isWrite (trace r) = [] /\
  List.filter isSleep (trace r) = [] /\
  clipboard r = (Sample.clipText "hunter2" clip).2.
Proof.
  cbn zeta. split; [vm_compute; reflexivity|].
  destruct (clipboard_write_failure_propagates Sample.findEntryByPath
              Sample.findAttributes Sample.createSeparatedList Sample.clipText
              Sample.db
              (Sample.cli ["db.kdbx"; "Root/Plain"; "5"] false None false)
              {| Sample.content := "old"; Sample.helper := [3] |}
              {| exitCode := 3;
                 trace := [FindEntryByPath "Root/Plain"; FindAttributes "password";
                           ClipText "hunter2" 3];
                 clipboard := {| Sample.content := "old"; Sample.helper := [] |} |}
              [FindEntryByPath "Root/Plain"; FindAttributes "password"]
              "hunter2" 3 [])
    as (Hexit & _ & Hwrite & Hsleep & _ & Hclip).
  - vm_compute. reflexivity.
  - reflexivity.
  - reflexivity.
  - discriminate.
  - repeat split; assumption.
Defined.

Lemma quiet_leaves_error_stream_unchanged_witness :
  let parser := Sample.cli ["db.kdbx"; "Root/Email"; "1"] false (Some "User") false in
  exists r r',
    Sample.run Sample.db (withQuiet false parser) Sample.fresh = Some r /\
    Sample.run Sample.db (withQuiet true parser) Sample.fresh = Some r' /\
    written STDERR (trace r') = written STDERR (trace r) /\
    written STDERR (trace r) = msgAmbiguous "User" "UserId, UserName" +:+ LF.
Proof.
  cbn zeta. eexists _, _.
  split; [vm_compute; reflexivity|]. split; [vm_compute; reflexivity|].
  split; [|reflexivity].
  eapply (quiet_leaves_error_stream_unchanged Sample.findEntryByPath
            Sample.findAttributes Sample.createSeparatedList Sample.clipText
            Sample.db
            (Sample.cli ["db.kdbx"; "Root/Email"; "1"] false (Some "User") false)
            Sample.fresh).
  - vm_compute. reflexivity.
  - vm_compute. reflexivity.
Defined.

Lemma unparsable_timeout_is_invalid_witness :
  let r := {| exitCode := EXIT_FAILURE;
              trace := line STDERR (msgInvalidTimeout "3x");
              clipboard := Sample.fresh |} in
  Sample.run Sample.db
    (Sample.cli ["db.kdbx"; "Root/Email"; "3x"] false None false)
    Sample.fresh = Some r /\
  ~ QtInt.IntRepresentation "3x" /\
  QtInt.toInt "3x" = 0 /\
  exitCode r = EXIT_FAILURE.
Proof.
  cbn zeta. split; [vm_compute; reflexivity|].
  assert (Hno : ~ QtInt.IntRepresentation "3x")
    by (by apply QtIntFacts.not_a_representation).
  split; [exact Hno|].
  destruct (unparsable_timeout_is_invalid Sample.findEntryByPath
              Sample.findAttributes Sample.createSeparatedList Sample.clipText
              Sample.db
              (Sample.cli ["db.kdbx"; "Root/Email"; "3x"] false None false)
              Sample.fresh
              {| exitCode := EXIT_FAILURE;
                 trace := line STDERR (msgInvalidTimeout "3x");
                 clipboard := Sample.fresh |}
              eq_refl eq_refl Hno) as ((Hzero & Hexit & _) & _).
  split; [exact Hzero | exact Hexit].
Defined.

Lemma other_argument_counts_ignore_timeout_witness :
  Sample.run Sample.db
    (Sample.cli ["db.kdbx"; "Root/Plain"; "abc"; "more"] false None false)
    Sample.fresh
  = Sample.run Sample.db
      (Sample.cli ["db.kdbx"; "Root/Plain"] false None false) Sample.fresh.
Proof.
  apply (other_argument_counts_ignore_timeout Sample.findEntryByPath
           Sample.findAttributes Sample.createSeparatedList Sample.clipText
           Sample.db
           (Sample.cli ["db.kdbx"; "Root/Plain"; "abc"; "more"] false None false)
           Sample.fresh).
  cbn. lia.
Defined.

Lemma missing_entry_run_witness :
  Sample.run Sample.db
    (Sample.cli ["db.kdbx"; "Root/Missing"; "7"] true (Some "URL") false)
    Sample.fresh
  = Some {| exitCode := EXIT_FAILURE;
            trace := FindEntryByPath "Root/Missing"
                       :: line STDERR (msgEntryNotFound "Root/Missing");
            clipboard := Sample.fresh |}.
Proof.
  apply (missing_entry_run Sample.findEntryByPath
           Sample.findAttributes Sample.createSeparatedList Sample.clipText
           Sample.db
           (Sample.cli ["db.kdbx"; "Root/Missing"; "7"] true (Some "URL") false)
           "Root/Missing" Sample.fresh).
  - reflexivity.
  - right. vm_compute. reflexivity.
  - vm_compute. reflexivity.
Defined.

Lemma attribute_defaults_to_password_witness :
  Sample.run Sample.db
    (Sample.cli ["db.kdbx"; "Root/Plain"; "2"] false None false) Sample.fresh
  = Sample.run Sample.db
      (Sample.cli ["db.kdbx"; "Root/Plain"; "2"] false (Some "password") false)
      Sample.fresh.
Proof.
  apply (attribute_defaults_to_password Sample.findEntryByPath
           Sample.findAttributes Sample.createSeparatedList Sample.clipText
           Sample.db
           (Sample.cli ["db.kdbx"; "Root/Plain"; "2"] false None false)
           Sample.fresh); reflexivity.
Defined.

Lemma totp_request_copies_current_code_witness :
  Sample.run Sample.db
    (Sample.cli ["db.kdbx"; "Root/Plain"] false (Some "totp") false) Sample.fresh
  = Some {| exitCode := EXIT_FAILURE;
            trace := FindEntryByPath "Root/Plain"
                       :: line STDERR (msgNoTotp "Root/Plain");
            clipboard := Sample.fresh |}.
Proof.
  apply (totp_request_copies_current_code Sample.findEntryByPath
           Sample.findAttributes Sample.createSeparatedList Sample.clipText
           Sample.db
           (Sample.cli ["db.kdbx"; "Root/Plain"] false (Some "totp") false)
           "Root/Plain" Sample.plain Sample.fresh).
  - reflexivity.
  - left. reflexivity.
  - vm_compute. reflexivity.
  - reflexivity.
  - reflexivity.
  - reflexivity.
Defined.

Lemma resolution_is_exclusive_witness :
  exists r,
    Sample.run Sample.db
      (Sample.cli ["db.kdbx"; "Root/Email"; "1"] false (Some "TOTP") false)
      Sample.fresh = Some r /\
    ((List.filter isResolutionCall (trace r) = [] /\
      exitCode r = EXIT_FAILURE /\ clipboard r = Sample.fresh) \/
     (List.filter isResolutionCall (trace r) = [Totp] /\
      totpRequested
        (Sample.cli ["db.kdbx"; "Root/Email"; "1"] false (Some "TOTP") false)
      = true) \/
     (List.filter isResolutionCall (trace r) = [FindAttributes "TOTP"] /\
      totpRequested
        (Sample.cli ["db.kdbx"; "Root/Email"; "1"] false (Some "TOTP") false)
      = false)).
Proof.
  eexists. split; [vm_compute; reflexivity|].
  apply (resolution_is_exclusive Sample.findEntryByPath
           Sample.findAttributes Sample.createSeparatedList Sample.clipText
           Sample.db
           (Sample.cli ["db.kdbx"; "Root/Email"; "1"] false (Some "TOTP") false)
           Sample.fresh).
  vm_compute. reflexivity.
Defined.

Lemma clipboard_calls_and_state_witness :
  exists c1,
    Sample.clipText "hunter2" {| Sample.content := "old"; Sample.helper := [0; 4] |}
    = (EXIT_SUCCESS, c1) /\
    Sample.clipText "" c1
    = (4, {| Sample.content := "hunter2"; Sample.helper := [] |}).
Proof.
  pose proof (clipboard_calls_and_state Sample.findEntryByPath
                Sample.findAttributes Sample.createSeparatedList Sample.clipText
                Sample.db
                (Sample.cli ["db.kdbx"; "Root/Plain"; "1"] false None false)
                {| Sample.content := "old"; Sample.helper := [0; 4] |}
                _ eq_refl) as H.
  vm_compute in H. destruct H as (_ & _ & _ & H). exact H.
Defined.

Lemma success_is_a_successful_write_witness :
  exists r,
    Sample.run Sample.db
      (Sample.cli ["db.kdbx"; "Root/Plain"] false None false)
      {| Sample.content := "old"; Sample.helper := [2] |} = Some r /\
    (exitCode r = EXIT_SUCCESS <->
     exists text,
       head (List.filter isClipText (trace r))
       = Some (ClipText text EXIT_SUCCESS)) /\
    exitCode r = 2.
Proof.
  eexists. split; [vm_compute; reflexivity|]. split; [|reflexivity].
  apply (success_is_a_successful_write Sample.findEntryByPath
           Sample.findAttributes Sample.createSeparatedList Sample.clipText
           Sample.db
           (Sample.cli ["db.kdbx"; "Root/Plain"] false None false)
           {| Sample.content := "old"; Sample.helper := [2] |}).
  vm_compute. reflexivity.
Defined.

Lemma diagnostics_leave_clipboard_alone_witness :
  exists r,
    Sample.run Sample.db
      (Sample.cli ["db.kdbx"; "Root/Email"] false (Some "User") false)
      Sample.fresh = Some r /\
    exitCode r = EXIT_FAILURE /\
    List.filter isClipText (trace r) = [] /\
    clipboard r = Sample.fresh.
Proof.
  eexists. split; [vm_compute; reflexivity|].
  apply (diagnostics_leave_clipboard_alone Sample.findEntryByPath
           Sample.findAttributes Sample.createSeparatedList Sample.clipText
           Sample.db
           (Sample.cli ["db.kdbx"; "Root/Email"] false (Some "User") false)
           Sample.fresh).
  - vm_compute. reflexivity.
  - vm_compute. discriminate.
Defined.

Lemma entry_is_looked_up_once_witness :
  exists r,
    Sample.run Sample.db
      (Sample.cli ["db.kdbx"; "Root/Email"; "2"] false None true)
      Sample.fresh = Some r /\
    List.filter isFindEntryByPath (trace r) = [FindEntryByPath "Root/Email"] /\
    head (trace r) = Some (FindEntryByPath "Root/Email").
Proof.
  eexists. split; [vm_compute; reflexivity|].
  destruct (entry_is_looked_up_once Sample.findEntryByPath
              Sample.findAttributes Sample.createSeparatedList Sample.clipText
              Sample.db
              (Sample.cli ["db.kdbx"; "Root/Email"; "2"] false None true)
              "Root/Email" Sample.fresh _ eq_refl eq_refl) as [Hfilter Hhead].
  split; [exact Hfilter | exact (Hhead eq_refl)].
Defined.

Lemma countdown_then_clear_witness :
  exists r pre code2 c1,
    Sample.run Sample.db
      (Sample.cli ["db.kdbx"; "Root/Plain"; "3"] false None false)
      Sample.fresh = Some r /\
    trace r = (pre ++ ClipText "" code2
                 :: erase STDOUT (msgClearing 1) ++ line STDOUT msgCleared)%list /\
    List.filter isStatusLine pre
    = [Write STDOUT (msgClearing 3); Write STDOUT (msgClearing 2);
       Write STDOUT (msgClearing 1)] /\
    List.filter isSleep pre = [Sleep 1000; Sleep 1000; Sleep 1000] /\
    Sample.clipText "" c1 = (code2, clipboard r).
Proof.
  destruct (countdown_then_clear Sample.findEntryByPath
              Sample.findAttributes Sample.createSeparatedList Sample.clipText
              Sample.db
              (Sample.cli ["db.kdbx"; "Root/Plain"; "3"] false None false)
              Sample.fresh _ eq_refl eq_refl eq_refl)
    as (_ & pre & code2 & c1 & Htrace & Hlines & _ & Hsleeps & Hclear).
  eexists _, pre, code2, c1. split; [reflexivity|].
  split; [exact Htrace|]. split; [exact Hlines|]. split; [exact Hsleeps|].
  exact Hclear.
Defined.

Lemma stored_values_are_not_shown_witness :
  exists r r',
    Sample.run Sample.db
      (Sample.cli ["db.kdbx"; "Root/Plain"; "1"] false None false)
      Sample.fresh = Some r /\
    Sample.run Sample.dbChanged
      (Sample.cli ["db.kdbx"; "Root/Plain"; "1"] false None false)
      Sample.fresh = Some r' /\
    exitCode r' = exitCode r /\
    List.filter notClipText (trace r') = List.filter notClipText (trace r) /\
    List.filter isClipText (trace r)
    = [ClipText "hunter2" EXIT_SUCCESS; ClipText "" EXIT_SUCCESS] /\
    List.filter isClipText (trace r')
    = [ClipText "correct horse" EXIT_SUCCESS; ClipText "" EXIT_SUCCESS].
Proof.
  eexists _, _. split; [vm_compute; reflexivity|].
  split; [vm_compute; reflexivity|].
  destruct (stored_values_are_not_shown Sample.findEntryByPath
              Sample.findAttributes Sample.createSeparatedList Sample.clipText
              Sample.db Sample.dbChanged
              (Sample.cli ["db.kdbx"; "Root/Plain"; "1"] false None false)
              "Root/Plain" Sample.plain Sample.plainChanged Sample.fresh _ _
              eq_refl eq_refl eq_refl eq_refl eq_refl
              (fun text text' => eq_refl) eq_refl eq_refl) as [Hexit Htrace].
  split; [exact Hexit|]. split; [exact Htrace|].
  split; reflexivity.
Defined.

Lemma value_stays_for_the_timeout_witness :
  exists r before value during code2 after,
    Sample.run Sample.db
      (Sample.cli ["db.kdbx"; "Root/Email"; "2"] true None true)
      Sample.fresh = Some r /\
    trace r = (before ++ ClipText value EXIT_SUCCESS
                 :: during ++ ClipText "" code2 :: after)%list /\
    List.filter isSleep before = [] /\
    List.filter isSleep during = [Sleep 1000; Sleep 1000] /\
    List.filter isSleep after = [].
Proof.
  destruct (value_stays_for_the_timeout Sample.findEntryByPath
              Sample.findAttributes Sample.createSeparatedList Sample.clipText
              Sample.db
              (Sample.cli ["db.kdbx"; "Root/Email"; "2"] true None true)
              Sample.fresh _ eq_refl eq_refl eq_refl)
    as (before & value & during & code2 & after
        & Htrace & _ & Hbefore & Hduring & _ & Hafter & _).
  eexists _, before, value, during, code2, after.
  split; [reflexivity|]. split; [exact Htrace|].
  split; [exact Hbefore|]. split; [exact Hduring | exact Hafter].
Defined.
